(** * Location resolution and weather enrichment pipeline of [app.py]

    A shallow embedding of the geocoding fallbacks, the enrichment step,
    the unit converter, the comfort index and the per-query loop of the
    [/get_weather] route, followed by the properties proved about them.

    Modelling conventions.
    - Python values that come out of [resp.json()] are values of [json];
      Python's [None] is [JNull].
    - Python numbers ([int] and [float]) are exact rationals [Q]; results of
      arithmetic are compared with [==] ([Qeq]).
    - Python [str] is [string]; [strip] and [upper] are modelled on the ASCII
      range, which is where the lookup tables of the source live.
    - A [dict] is an association list in insertion order: a key is looked up
      at its first (only) occurrence, assignment replaces in place or
      appends, as a Python dict does.
    - The OpenWeatherMap service is a function of the requests made so far
      and the present request, so that it may answer the same request
      differently the second time (a transient error). *)

From Stdlib Require Import List String Ascii Bool Arith Lia.
From Stdlib Require Import QArith Qminmax Lqa.
Import ListNotations.

#[local] Set Warnings "-register-all".
Local Close Scope Q_scope.
Local Open Scope nat_scope.
Local Open Scope string_scope.
Local Open Scope list_scope.

(** ** Python values *)

Inductive json : Type :=
| JNull
| JBool (b : bool)
| JNum (q : Q)
| JStr (s : string)
| JArr (l : list json)
| JObj (d : list (string * json)).

Definition dict : Type := list (string * json).

(** [d.get(k)] without the default, [None] of [option] meaning "no such key". *)
Fixpoint dict_get (d : dict) (k : string) : option json :=
  match d with
  | [] => None
  | (k', v) :: d' => if String.eqb k' k then Some v else dict_get d' k
  end.

(** [k in d] *)
Definition dict_mem (d : dict) (k : string) : bool :=
  match dict_get d k with Some _ => true | None => false end.

(** [d[k] = v] *)
Fixpoint dict_set (d : dict) (k : string) (v : json) : dict :=
  match d with
  | [] => [(k, v)]
  | (k', v') :: d' =>
      if String.eqb k' k then (k', v) :: d' else (k', v') :: dict_set d' k v
  end.

(** Truth value of a Python object, as [if x:] and [not x] compute it. *)
Definition truthy (x : json) : bool :=
  match x with
  | JNull => false
  | JBool b => b
  | JNum q => negb (Qeq_bool q 0)
  | JStr s => negb (String.eqb s "")
  | JArr l => match l with [] => false | _ => true end
  | JObj d => match d with [] => false | _ => true end
  end.

Definition is_none (x : json) : bool :=
  match x with JNull => true | _ => false end.

(** ** Exceptions *)

(** Two classes of exception are told apart by the handlers of the source:
    [requests.exceptions.RequestException] and every other [Exception]
    ([KeyError], [TypeError], [AttributeError], [IndexError], ...). *)
Inductive exn : Type :=
| RequestException
| OtherException.

Inductive result (A : Type) : Type :=
| Ok (a : A)
| Raise (e : exn).
Arguments Ok {A} a.
Arguments Raise {A} e.

Definition rbind {A B} (r : result A) (f : A -> result B) : result B :=
  match r with
  | Ok a => f a
  | Raise e => Raise e
  end.

Declare Scope res_scope.
Delimit Scope res_scope with res.
Notation "x <-- r ;; k" := (rbind r (fun x => k))
  (at level 61, r at next level, right associativity) : res_scope.

(** [x.get(k, dflt)]: only a dict has the method. *)
Definition py_get (x : json) (k : string) (dflt : json) : result json :=
  match x with
  | JObj d => Ok (match dict_get d k with Some v => v | None => dflt end)
  | _ => Raise OtherException
  end.

(** [x[k]] for a string key: [KeyError] on a dict without the key,
    [TypeError] on everything that is not a dict. *)
Definition py_getitem (x : json) (k : string) : result json :=
  match x with
  | JObj d => match dict_get d k with Some v => Ok v | None => Raise OtherException end
  | _ => Raise OtherException
  end.

(** [x[0]]: the head of a list, the first character of a string; [IndexError]
    when empty, [KeyError] on a dict (its keys are strings), [TypeError]
    otherwise. *)
Definition py_index0 (x : json) : result json :=
  match x with
  | JArr (a :: _) => Ok a
  | JStr (String c _) => Ok (JStr (String c ""))
  | _ => Raise OtherException
  end.

(** A value used as a number: [bool] is a subclass of [int]; anything else in
    arithmetic or in a comparison with a number raises [TypeError]. *)
Definition py_num (x : json) : result Q :=
  match x with
  | JNum q => Ok q
  | JBool b => Ok (if b then 1 else 0)%Q
  | _ => Raise OtherException
  end.

(** ** Python string methods *)

Definition is_space (c : ascii) : bool :=
  let n := nat_of_ascii c in
  (Nat.leb 9 n && Nat.leb n 13) || (Nat.leb 28 n && Nat.leb n 32).

Fixpoint lstrip (s : string) : string :=
  match s with
  | EmptyString => EmptyString
  | String c s' => if is_space c then lstrip s' else s
  end.

Fixpoint rstrip (s : string) : string :=
  match s with
  | EmptyString => EmptyString
  | String c s' =>
      let r := rstrip s' in
      if is_space c && String.eqb r "" then EmptyString else String c r
  end.

(** [s.strip()] *)
Definition strip (s : string) : string := rstrip (lstrip s).

Definition upper_char (c : ascii) : ascii :=
  let n := nat_of_ascii c in
  if Nat.leb 97 n && Nat.leb n 122 then ascii_of_nat (n - 32) else c.

(** [s.upper()] *)
Fixpoint upper (s : string) : string :=
  match s with
  | EmptyString => EmptyString
  | String c s' => String (upper_char c) (upper s')
  end.

(** [s.replace(".", "")] *)
Fixpoint remove_periods (s : string) : string :=
  match s with
  | EmptyString => EmptyString
  | String c s' =>
      if Ascii.eqb c "."%char then remove_periods s' else String c (remove_periods s')
  end.

(** [s.split(",")]: never empty, one more part than there are commas. *)
Fixpoint split_commas (s : string) : list string :=
  match s with
  | EmptyString => [EmptyString]
  | String c s' =>
      if Ascii.eqb c ","%char then EmptyString :: split_commas s'
      else match split_commas s' with
           | [] => [String c EmptyString]
           | p :: ps => String c p :: ps
           end
  end.

(** [",".join(l)] *)
Fixpoint join_commas (l : list string) : string :=
  match l with
  | [] => EmptyString
  | [p] => p
  | p :: l' => (p ++ "," ++ join_commas l')%string
  end.

(** ** Unit converter and comfort index *)

Local Open Scope Q_scope.

(** [convert_temperatures(kelvin)] *)
Definition convert_temperatures (kelvin : json) : result (json * json) :=
  if is_none kelvin then Ok (JNull, JNull)
  else
    (k <-- py_num kelvin ;;
     let celsius := k - 273.15 in
     let fahrenheit := (celsius * 9 / 5) + 32 in
     Ok (JNum celsius, JNum fahrenheit))%res.

(** [calculate_comfort_index(temp_celsius, humidity, wind_speed)] *)
Definition calculate_comfort_index (temp_celsius humidity wind_speed : json)
  : result json :=
  if is_none temp_celsius || is_none humidity || is_none wind_speed then Ok JNull
  else
    (t <-- py_num temp_celsius ;;
     let normalized_temp := Qmax 0 (Qmin t 40) / 40 in
     h <-- py_num humidity ;;
     let normalized_humidity := 1 - (h / 100) in
     w <-- py_num wind_speed ;;
     let normalized_wind := 1 - (Qmin w 10 / 10) in
     let comfort_index :=
       0.5 * normalized_temp + 0.3 * normalized_humidity + 0.2 * normalized_wind in
     Ok (JNum comfort_index))%res.

(** The clamp of the specification, to compare the source with. *)
Definition clamp (x lo hi : Q) : Q := Qmax lo (Qmin x hi).

(** The number [calculate_comfort_index] computes on three numbers. *)
Definition comfort_value (t h w : Q) : Q :=
  0.5 * (Qmax 0 (Qmin t 40) / 40) + 0.3 * (1 - (h / 100)) + 0.2 * (1 - (Qmin w 10 / 10)).

Local Close Scope Q_scope.

(** ** The weather provider and the computations that call it *)

(** The two requests the application sends to OpenWeatherMap. *)
Inductive request : Type :=
| Geocode (query api_key : string)
| Weather (lat lon : json) (api_key : string).

(** The requests sent so far, oldest first. *)
Definition trace : Type := list request.

(** A provider answers a request, knowing the requests that came before, with
    the parsed JSON body or with an exception ([raise_for_status], a network
    failure). *)
Definition provider : Type := trace -> request -> result json.

(** A computation reads the provider, extends the trace and returns a value
    or raises. *)
Definition M (A : Type) : Type := provider -> trace -> result A * trace.

Definition ret {A} (a : A) : M A := fun _ t => (Ok a, t).

Definition bind {A B} (m : M A) (f : A -> M B) : M B :=
  fun p t =>
    match m p t with
    | (Ok a, t') => f a p t'
    | (Raise e, t') => (Raise e, t')
    end.

Definition lift {A} (r : result A) : M A := fun _ t => (r, t).

(** [try: m  except RequestException ...: h  except Exception ...: h] *)
Definition try_except {A} (m : M A) (h : exn -> M A) : M A :=
  fun p t =>
    match m p t with
    | (Ok a, t') => (Ok a, t')
    | (Raise e, t') => h e p t'
    end.

(** One HTTP round trip: [requests.get], [raise_for_status], [resp.json()]. *)
Definition call (r : request) : M json := fun p t => (p t r, t ++ [r]).

Declare Scope m_scope.
Delimit Scope m_scope with M.
Notation "x <- m ;; k" := (bind m (fun x => k))
  (at level 61, m at next level, right associativity) : m_scope.
Local Open Scope m_scope.

(** ** Lookup tables *)

Definition US_STATE_ABBREVS : list string :=
  ["AL";"AK";"AZ";"AR";"CA";"CO";"CT";"DE";"FL";"GA";
   "HI";"ID";"IL";"IN";"IA";"KS";"KY";"LA";"ME";"MD";
   "MA";"MI";"MN";"MS";"MO";"MT";"NE";"NV";"NH";"NJ";
   "NM";"NY";"NC";"ND";"OH";"OK";"OR";"PA";"RI";"SC";
   "SD";"TN";"TX";"UT";"VT";"VA";"WA";"WV";"WI";"WY";
   "DC"].

Definition COUNTRY_SYNONYMS : list (string * string) :=
  [("UK", "GB")].

(** [s in US_STATE_ABBREVS] *)
Definition set_mem (s : string) (l : list string) : bool :=
  existsb (String.eqb s) l.

(** [COUNTRY_SYNONYMS[k]] guarded by [k in COUNTRY_SYNONYMS] *)
Fixpoint table_get (l : list (string * string)) (k : string) : option string :=
  match l with
  | [] => None
  | (k', v) :: l' => if String.eqb k' k then Some v else table_get l' k
  end.

(** ** Geocoding and enrichment *)

Definition direct_geocode (query api_key : string) : M json :=
  call (Geocode query api_key).

Definition get_weather_by_latlon (lat lon : json) (api_key : string) : M json :=
  call (Weather lat lon api_key).

(** [x[k1][k2] = v] on a dict [x]: the inner value has to be a dict too. *)
Definition py_setitem2 (d : dict) (k1 k2 : string) (v : json) : result dict :=
  match dict_get d k1 with
  | Some (JObj inner) => Ok (dict_set d k1 (JObj (dict_set inner k2 v)))
  | _ => Raise OtherException
  end.

(** Lines 261-272 of [finalize_weather_data]: the overlay of the geocoding
    fields on the weather payload.  On a payload that is not a dict every
    path of the source ends in a [TypeError], at the membership test or at
    the first item assignment. *)
Definition overlay_location (weather_data country_code state_name city_name : json)
  : result json :=
  match weather_data with
  | JObj d =>
      let d0 := if negb (dict_mem d "sys") then dict_set d "sys" (JObj []) else d in
      (d1 <-- py_setitem2 d0 "sys" "country" country_code ;;
       d2 <-- py_setitem2 d1 "sys" "state" state_name ;;
       Ok (JObj (dict_set d2 "name" city_name)))%res
  | _ => Raise OtherException
  end.

Definition finalize_weather_data (geocode_data : json) (api_key : string) : M json :=
  g0 <- lift (py_index0 geocode_data) ;;
  lat <- lift (py_getitem g0 "lat") ;;
  lon <- lift (py_getitem g0 "lon") ;;
  country_code <- lift (py_get g0 "country" JNull) ;;
  state_name <- lift (py_get g0 "state" JNull) ;;
  city_name <- lift (py_get g0 "name" JNull) ;;
  weather_data <- get_weather_by_latlon lat lon api_key ;;
  lift (overlay_location weather_data country_code state_name city_name).

(** The [try] block both fallbacks share: geocode the rewritten query and, on
    a non-empty answer, return the enriched weather ([Some]); an empty answer
    or any exception falls through to what follows ([None]). *)
Definition fallback_attempt (fallback_query api_key : string) : M (option json) :=
  try_except
    (geo_data <- direct_geocode fallback_query api_key ;;
     if truthy geo_data then
       weather_data <- finalize_weather_data geo_data api_key ;;
       ret (Some weather_data)
     else ret None)
    (fun _ => ret None).

(** [parts[-1].upper().replace(".", "")] *)
Definition normalized_last (parts : list string) : string :=
  remove_periods (upper (last parts "")).

(** Fallback (A) of [try_geocode_fallbacks]: the country synonym.  [Some] is
    an early [return], [None] falls through to fallback (B). *)
Definition fallback_A (parts : list string) (api_key : string) : M (option json) :=
  if Nat.leb 2 (List.length parts) then
    let last_part := normalized_last parts in
    match table_get COUNTRY_SYNONYMS last_part with
    | Some canonical =>
        let fallback_query :=
          (join_commas (removelast parts) ++ "," ++ canonical)%string in
        fallback_attempt fallback_query api_key
    | None => ret None
    end
  else ret None.

(** Fallback (B) of [try_geocode_fallbacks]: US city and state abbreviation. *)
Definition fallback_B (location_query : string) (parts : list string)
    (api_key : string) : M (option json) :=
  if Nat.leb 2 (List.length parts) then
    let possible_state := normalized_last parts in
    if set_mem possible_state US_STATE_ABBREVS then
      let fallback_query := (location_query ++ ", US")%string in
      fallback_attempt fallback_query api_key
    else ret None
  else ret None.

Definition try_geocode_fallbacks (location_query api_key : string) : M json :=
  let parts := map strip (split_commas location_query) in
  a <- fallback_A parts api_key ;;
  match a with
  | Some weather_data => ret weather_data
  | None =>
      b <- fallback_B location_query parts api_key ;;
      match b with
      | Some weather_data => ret weather_data
      | None => ret JNull
      end
  end.

Definition get_weather_data_geocoded (location_query api_key : string) : M json :=
  try_except
    (geo_data <- direct_geocode location_query api_key ;;
     if truthy geo_data then finalize_weather_data geo_data api_key
     else
       weather_data <- try_geocode_fallbacks location_query api_key ;;
       if truthy weather_data then ret weather_data else ret JNull)
    (fun _ => ret JNull).

(** ** The route [/get_weather] *)

(** The record of a query for which no weather data came back. *)
Definition fetch_error_record (original_input : string) : dict :=
  [("original_input", JStr original_input);
   ("error",
    JStr ("Could not fetch weather data for '" ++ original_input
          ++ "'. Location may be invalid, not found, or an API/network error occurred.")%string)].

Definition incomplete_data_error : string :=
  "Incomplete data received from the weather service API.".

Definition internal_error : string :=
  "An internal error occurred while processing the weather data for this location.".

Definition internal_error_record (original_input : string) : dict :=
  [("original_input", JStr original_input);
   ("error", JStr internal_error)].

(** [x or y] *)
Definition py_or (x y : json) : json := if truthy x then x else y.

(** The body of the [try] of lines 536-587: the one record it appends, or the
    exception it raises before appending anything. *)
Definition shape_weather_data (original_input : string) (weather_data : json)
  : result dict :=
  (main_info <-- py_get weather_data "main" (JObj []) ;;
   temp_kelvin <-- py_get main_info "temp" JNull ;;
   humidity <-- py_get main_info "humidity" JNull ;;
   weather_details <-- py_get weather_data "weather" (JArr [JObj []]) ;;
   weather_desc <--
     (if truthy weather_details then
        first <-- py_index0 weather_details ;;
        py_get first "description" (JStr "N/A")
      else Ok (JStr "N/A")) ;;
   wind_info <-- py_get weather_data "wind" (JObj []) ;;
   wind_speed <-- py_get wind_info "speed" JNull ;;
   city_name_api <-- py_get weather_data "name" JNull ;;
   sys_country <-- py_get weather_data "sys" (JObj []) ;;
   country_code <-- py_get sys_country "country" JNull ;;
   sys_state <-- py_get weather_data "sys" (JObj []) ;;
   state_name <-- py_get sys_state "state" JNull ;;
   if is_none temp_kelvin || is_none humidity || is_none wind_speed
      || negb (truthy city_name_api)
   then
     Ok [("original_input", JStr original_input);
         ("city_name", py_or city_name_api (JStr "Unknown"));
         ("country_code", country_code);
         ("state", state_name);
         ("error", JStr incomplete_data_error)]
   else
     temps <-- convert_temperatures temp_kelvin ;;
     let temp_celsius := fst temps in
     let temp_fahrenheit := snd temps in
     comfort <-- calculate_comfort_index temp_celsius humidity wind_speed ;;
     Ok [("original_input", JStr original_input);
         ("city_name", city_name_api);
         ("country_code", country_code);
         ("state", state_name);
         ("weather_desc", weather_desc);
         ("temp_kelvin", temp_kelvin);
         ("temp_celsius", temp_celsius);
         ("temp_fahrenheit", temp_fahrenheit);
         ("humidity", humidity);
         ("wind_speed", wind_speed);
         ("comfort_index", comfort)])%res.

(** The [try ... except Exception] of lines 536-597. *)
Definition process_weather_data (original_input : string) (weather_data : json)
  : dict :=
  match shape_weather_data original_input weather_data with
  | Ok city_result => city_result
  | Raise _ => internal_error_record original_input
  end.

(** One iteration of the loop of lines 514-597 on the list built so far. *)
Definition loop_body (api_key : string) (all_results_data : list dict)
    (location_query : string) : M (list dict) :=
  let original_input := strip location_query in
  if negb (truthy (JStr original_input)) then ret all_results_data
  else
    weather_data <- get_weather_data_geocoded original_input api_key ;;
    if negb (truthy weather_data) then
      ret (all_results_data ++ [fetch_error_record original_input])
    else
      ret (all_results_data ++ [process_weather_data original_input weather_data]).

(** The loop of lines 511-598, the batch pipeline. *)
Fixpoint process_batch (api_key : string) (location_queries : list string)
    (all_results_data : list dict) : M (list dict) :=
  match location_queries with
  | [] => ret all_results_data
  | location_query :: rest =>
      acc <- loop_body api_key all_results_data location_query ;;
      process_batch api_key rest acc
  end.

Inductive response : Type :=
| ErrorResponse (status : nat)
| WeatherResponse (weather_data : list dict).

(** The route on a body whose ['cities'] is a list of strings; the key is
    [os.environ.get('OPENWEATHER_API_KEY')].  Storing the valid records does
    not change the response and is left out. *)
Definition get_weather (api_key : option string) (location_queries : list string)
  : M response :=
  match location_queries with
  | [] =>
      ret (ErrorResponse 400)
  | _ =>
      match api_key with
      | Some key =>
          if truthy (JStr key) then
            all_results_data <- process_batch key location_queries [] ;;
            ret (WeatherResponse all_results_data)
          else ret (ErrorResponse 500)
      | None => ret (ErrorResponse 500)
      end
  end.

(** ** Vocabulary of the statements *)

(** A record is stored, and counts as a success, when it has no ['error']. *)
Definition is_success (r : dict) : bool := negb (dict_mem r "error").

Definition is_incomplete_failure (r : dict) : bool :=
  match dict_get r "error" with
  | Some (JStr e) => String.eqb e incomplete_data_error
  | _ => false
  end.

(** [x.get(k1, {}).get(k2)] read off a payload that has the provider's shape:
    [None] when either level is absent. *)
Definition field2 (d : dict) (k1 k2 : string) : json :=
  match dict_get d k1 with
  | Some (JObj inner) => match dict_get inner k2 with Some v => v | None => JNull end
  | _ => JNull
  end.

Definition field1 (d : dict) (k : string) : json :=
  match dict_get d k with Some v => v | None => JNull end.

Definition absent_or (P : json -> bool) (o : option json) : bool :=
  match o with None => true | Some v => P v end.

Definition is_obj (x : json) : bool :=
  match x with JObj _ => true | _ => false end.

Definition is_number_or_none (x : json) : bool :=
  match x with JNull | JNum _ | JBool _ => true | _ => false end.

(** The [weather] entry as the provider documents it: a list of condition
    objects, possibly empty. *)
Definition is_condition_list (x : json) : bool :=
  match x with
  | JArr [] => true
  | JArr (JObj _ :: _) => true
  | JNull => true
  | _ => false
  end.

(** A payload from which the loop can read its fields without raising:
    [main], [wind] and [sys] are objects when present, [weather] is a list
    of condition objects, possibly empty. *)
Definition extractable (d : dict) : bool :=
  absent_or is_obj (dict_get d "main")
  && absent_or is_obj (dict_get d "wind")
  && absent_or is_obj (dict_get d "sys")
  && absent_or is_condition_list (dict_get d "weather").

(** A payload typed as the provider documents it: extractable, and the three
    measurements are numbers when present. *)
Definition well_shaped (d : dict) : bool :=
  extractable d
  && is_number_or_none (field2 d "main" "temp")
  && is_number_or_none (field2 d "main" "humidity")
  && is_number_or_none (field2 d "wind" "speed").

(** The description the loop reads off an extractable payload. *)
Definition description_of (d : dict) : json :=
  match dict_get d "weather" with
  | Some (JArr (JObj first :: _)) =>
      match dict_get first "description" with Some v => v | None => JStr "N/A" end
  | _ => JStr "N/A"
  end.

(** The four values the loop requires. *)
Definition complete (d : dict) : bool :=
  negb (is_none (field2 d "main" "temp"))
  && negb (is_none (field2 d "main" "humidity"))
  && negb (is_none (field2 d "wind" "speed"))
  && truthy (field1 d "name").

(** The record of a query whose payload is not complete. *)
Definition incomplete_record (original_input : string) (d : dict) : dict :=
  [("original_input", JStr original_input);
   ("city_name", py_or (field1 d "name") (JStr "Unknown"));
   ("country_code", field2 d "sys" "country");
   ("state", field2 d "sys" "state");
   ("error", JStr incomplete_data_error)].

(** What a payload looks like once the overlay has been applied. *)
Definition overlaid (x country_code state_name city_name : json) : Prop :=
  exists (d sys : dict),
    x = JObj d /\
    dict_get d "name" = Some city_name /\
    dict_get d "sys" = Some (JObj sys) /\
    dict_get sys "country" = Some country_code /\
    dict_get sys "state" = Some state_name.

(** What resolution hands to the loop: [None], or an overlaid payload. *)
Definition resolved (x : json) : Prop :=
  x = JNull \/ exists cc st cn, overlaid x cc st cn.

(** [r['original_input']], the stripped query a record belongs to. *)
Definition original_input_of (r : dict) : option json := dict_get r "original_input".

(** A query that survives [if not original_input: continue]. *)
Definition nonempty (s : string) : bool := negb (String.eqb s "").

(** The payload a run returned, when it returned one. *)
Definition payload_of (x : result json * trace) : dict :=
  match fst x with
  | Ok (JObj d) => d
  | _ => []
  end.

(** ** Storage of the valid records *)
















(** ** More vocabulary *)

(** [',' in s] *)
Fixpoint has_comma (s : string) : bool :=
  match s with
  | EmptyString => false
  | String c s' => Ascii.eqb c ","%char || has_comma s'
  end.

(** What a run may send after the direct geocode request: nothing, the
    weather request of a direct match, one fallback geocode, or one fallback
    geocode and its weather request. *)
Definition after_direct (key : string) (t1 : trace) : Prop :=
  t1 = [] \/
  (exists lat lon, t1 = [Weather lat lon key]) \/
  (exists fq, t1 = [Geocode fq key]) \/
  (exists fq lat lon, t1 = [Geocode fq key; Weather lat lon key]).

(** The payload [w] is the weather the provider gave for the coordinates
    [lat], [lon] of the first match it returned for the query [fq], asked
    after the requests [t0], with that match's name, country and state laid
    over it. *)
Definition enriched_from (p : provider) (key : string) (t0 : trace) (fq : string)
    (lat lon w : json) : Prop :=
  exists (g : dict) (rest : list json) (d d' : dict),
    p t0 (Geocode fq key) = Ok (JArr (JObj g :: rest)) /\
    dict_get g "lat" = Some lat /\
    dict_get g "lon" = Some lon /\
    p (t0 ++ [Geocode fq key]) (Weather lat lon key) = Ok (JObj d) /\
    w = JObj d' /\
    overlaid (JObj d') (field1 g "country") (field1 g "state") (field1 g "name") /\
    (forall k, k <> "sys" -> k <> "name" -> dict_get d' k = dict_get d k).

(** The record of a success, as [store_weather_data] and the page read it:
    eleven entries, a city name that is not empty, a temperature that is a
    number, and derived values that are numbers computed from it. *)
Definition success_record (r : dict) : Prop :=
  exists (oi : string) (city cc st desc temp hum wind : json) (k c f v : Q),
    r = [("original_input", JStr oi);
         ("city_name", city);
         ("country_code", cc);
         ("state", st);
         ("weather_desc", desc);
         ("temp_kelvin", temp);
         ("temp_celsius", JNum c);
         ("temp_fahrenheit", JNum f);
         ("humidity", hum);
         ("wind_speed", wind);
         ("comfort_index", JNum v)] /\
    truthy city = true /\
    py_num temp = Ok k /\
    (c == k - 273.15)%Q /\
    (f == (k - 273.15) * 9 / 5 + 32)%Q /\
    hum <> JNull /\ wind <> JNull.

(** The three kinds of failure record. *)
Definition failure_record (r : dict) : Prop :=
  exists oi : string,
    r = fetch_error_record oi \/
    r = internal_error_record oi \/
    exists city cc st,
      r = [("original_input", JStr oi);
           ("city_name", city);
           ("country_code", cc);
           ("state", st);
           ("error", JStr incomplete_data_error)].

(** ** Sample providers *)

Definition boston_match : json :=
  JArr [JObj [("name", JStr "Boston"); ("lat", JNum 42.36); ("lon", JNum (-71.06));
              ("country", JStr "US"); ("state", JStr "Massachusetts")]].

Definition clear_sky : json :=
  JObj [("weather", JArr [JObj [("main", JStr "Clear"); ("description", JStr "clear sky")]]);
        ("main", JObj [("temp", JNum 290.15); ("humidity", JNum 50)]);
        ("wind", JObj [("speed", JNum 3)]);
        ("sys", JObj [("country", JStr "XX")]);
        ("name", JStr "Somewhere")].

(** A provider whose very first request fails, and which afterwards knows
    Boston only under the query with the country appended. *)
Definition flaky_provider : provider :=
  fun t r =>
    match t, r with
    | [], _ => Raise RequestException
    | _, Geocode q _ =>
        if String.eqb q "Boston, MA, US" then Ok boston_match else Ok (JArr [])
    | _, Weather _ _ _ => Ok clear_sky
    end.

(** A provider that knows no place at all. *)
Definition empty_provider : provider :=
  fun _ r =>
    match r with
    | Geocode _ _ => Ok (JArr [])
    | Weather _ _ _ => Ok (JObj [])
    end.

(** A provider that fails on every request. *)
Definition failing_provider : provider := fun _ _ => Raise RequestException.

(** A provider that answers every geocode with Boston and every weather
    request with a complete observation. *)
Definition steady_provider : provider :=
  fun _ r =>
    match r with
    | Geocode _ _ => Ok boston_match
    | Weather _ _ _ => Ok clear_sky
    end.

(** A geocode match whose name is the empty string. *)
Definition nameless_match : json :=
  JArr [JObj [("name", JStr ""); ("lat", JNum 1); ("lon", JNum 2)]].

Definition nameless_provider : provider :=
  fun _ r =>
    match r with
    | Geocode _ _ => Ok nameless_match
    | Weather _ _ _ => Ok clear_sky
    end.

(** An observation with neither [weather] nor [sys]. *)
Definition bare_observation : dict :=
  [("main", JObj [("temp", JNum 280); ("humidity", JNum 80)]);
   ("wind", JObj [("speed", JNum 12)])].

Definition bare_provider : provider :=
  fun _ r =>
    match r with
    | Geocode _ _ => Ok boston_match
    | Weather _ _ _ => Ok (JObj bare_observation)
    end.

(** An observation whose temperature came as text. *)
Definition textual_observation : dict :=
  [("main", JObj [("temp", JStr "290.15"); ("humidity", JNum 50)]);
   ("wind", JObj [("speed", JNum 3)])].

Definition textual_provider : provider :=
  fun _ r =>
    match r with
    | Geocode _ _ => Ok boston_match
    | Weather _ _ _ => Ok (JObj textual_observation)
    end.





(** * Properties *)

(** ** Tactics *)

Local Open Scope Q_scope.

(** [lra] does not divide: the three constant divisors of the source are
    turned into multiplications first. *)
Ltac constant_divisors :=
  unfold Qdiv in *;
  change (/ 40) with (1 # 40) in *;
  change (/ 100) with (1 # 100) in *;
  change (/ 10) with (1 # 10) in *.

Local Close Scope Q_scope.

(** Runs a computation of [M] symbolically, down to the provider's answers. *)
Ltac unfold_m :=
  unfold direct_geocode, get_weather_by_latlon in *;
  unfold bind, lift, ret, try_except, call in *;
  cbv beta iota in *.

(** ** Unit converter and comfort index *)

Local Open Scope Q_scope.

Lemma clamp_bounds (x lo hi : Q) : lo <= hi -> lo <= clamp x lo hi <= hi.
Proof.
  intros Hlh. unfold clamp. split.
  - apply Q.le_max_l.
  - apply Q.max_lub; [exact Hlh | apply Q.le_min_r].
Qed.

Lemma clamp_mono (x y lo hi : Q) : x <= y -> clamp x lo hi <= clamp y lo hi.
Proof.
  intros Hxy. unfold clamp.
  apply Q.max_le_compat_l. apply Q.min_le_compat_r. exact Hxy.
Qed.

Lemma min_nonneg_is_clamp (w hi : Q) : 0 <= w -> 0 <= hi -> Qmin w hi == clamp w 0 hi.
Proof.
  intros Hw Hhi. unfold clamp. symmetry. apply Q.max_r.
  apply Q.min_glb; assumption.
Qed.

Lemma calculate_comfort_index_num (t h w : Q) :
  calculate_comfort_index (JNum t) (JNum h) (JNum w) = Ok (JNum (comfort_value t h w)).
Proof. reflexivity. Qed.

Lemma is_none_true (x : json) : is_none x = true <-> x = JNull.
Proof. destruct x; simpl; split; intros H; congruence. Qed.

Lemma calculate_comfort_index_none_iff (t h w : json) :
  calculate_comfort_index t h w = Ok JNull <-> (t = JNull \/ h = JNull \/ w = JNull).
Proof.
  unfold calculate_comfort_index. split.
  - destruct (is_none t) eqn:Ht; [left; now apply is_none_true |].
    destruct (is_none h) eqn:Hh; [right; left; now apply is_none_true |].
    destruct (is_none w) eqn:Hw; [right; right; now apply is_none_true |].
    simpl. destruct (py_num t); simpl; [| discriminate].
    destruct (py_num h); simpl; [| discriminate].
    destruct (py_num w); simpl; discriminate.
  - intros [-> | [-> | ->]]; simpl.
    + reflexivity.
    + now rewrite orb_true_r.
    + now rewrite !orb_true_r.
Qed.

Lemma comfort_value_formula (t h w : Q) :
  0 <= w ->
  comfort_value t h w ==
    0.5 * (clamp t 0 40 / 40) + 0.3 * (1 - h / 100) + 0.2 * (1 - clamp w 0 10 / 10).
Proof.
  intros Hw. unfold comfort_value.
  rewrite (min_nonneg_is_clamp w 10 Hw) by lra.
  unfold clamp. reflexivity.
Qed.

Lemma comfort_value_range (t h w : Q) :
  0 <= h <= 100 -> 0 <= w -> 0 <= comfort_value t h w <= 1.
Proof.
  intros Hh Hw. rewrite (comfort_value_formula t h w Hw).
  assert (Ht' : 0 <= clamp t 0 40 <= 40) by (apply clamp_bounds; lra).
  assert (Hw' : 0 <= clamp w 0 10 <= 10) by (apply clamp_bounds; lra).
  set (a := clamp t 0 40) in *. set (b := clamp w 0 10) in *.
  constant_divisors. split; lra.
Qed.

(** C5, as amended: [calculate_comfort_index] returns [None] exactly when one
    of its three arguments is [None]; on numbers with humidity in [0,100] and
    a non-negative wind speed it returns
    0.5*(clamp(t,0,40)/40) + 0.3*(1 - h/100) + 0.2*(1 - clamp(w,0,10)/10),
    a value in [0,1]; at (20, 50, 5) that value is 0.5. *)
Theorem calculate_comfort_index_spec :
  (forall t h w : json,
      calculate_comfort_index t h w = Ok JNull <->
      (t = JNull \/ h = JNull \/ w = JNull)) /\
  (forall t h w : Q,
      0 <= h <= 100 -> 0 <= w ->
      exists v : Q,
        calculate_comfort_index (JNum t) (JNum h) (JNum w) = Ok (JNum v) /\
        v == 0.5 * (clamp t 0 40 / 40) + 0.3 * (1 - h / 100)
             + 0.2 * (1 - clamp w 0 10 / 10) /\
        0 <= v <= 1) /\
  (exists v : Q,
      calculate_comfort_index (JNum 20) (JNum 50) (JNum 5) = Ok (JNum v) /\
      v == 0.5).
Proof.
  split; [exact calculate_comfort_index_none_iff | split].
  - intros t h w Hh Hw. exists (comfort_value t h w).
    split; [apply calculate_comfort_index_num | split].
    + now apply comfort_value_formula.
    + now apply comfort_value_range.
  - exists (comfort_value 20 50 5). split; [reflexivity | vm_compute; reflexivity].
Qed.

Lemma calculate_comfort_index_spec_witness :
  exists v : Q,
    calculate_comfort_index (JNum 25) (JNum 40) (JNum 12) = Ok (JNum v) /\
    v == 0.5 * (clamp 25 0 40 / 40) + 0.3 * (1 - 40 / 100)
         + 0.2 * (1 - clamp 12 0 10 / 10) /\
    0 <= v <= 1.
Proof.
  apply (proj1 (proj2 calculate_comfort_index_spec) 25 40 12).
  - split; vm_compute; discriminate.
  - vm_compute; discriminate.
Defined.

(** C5 as written fails at its own example: the index of (20, 50, 5) is
    0.25 + 0.15 + 0.10 = 0.5 and not 0.675. *)
Lemma calculate_comfort_index_20_50_5_not_0675 :
  exists v : Q,
    calculate_comfort_index (JNum 20) (JNum 50) (JNum 5) = Ok (JNum v) /\
    v == 0.5 /\ ~ v == 0.675.
Proof.
  exists (comfort_value 20 50 5).
  split; [reflexivity | split; vm_compute; [reflexivity | discriminate]].
Qed.

(** C6: on numbers the comfort index does not increase when the humidity or
    the wind speed grows, and does not decrease when the temperature grows;
    the last holds for all temperatures, those of [0,40] among them. *)
Theorem calculate_comfort_index_monotone :
  (forall t h1 h2 w : Q,
      h1 <= h2 ->
      exists v1 v2 : Q,
        calculate_comfort_index (JNum t) (JNum h1) (JNum w) = Ok (JNum v1) /\
        calculate_comfort_index (JNum t) (JNum h2) (JNum w) = Ok (JNum v2) /\
        v2 <= v1) /\
  (forall t h w1 w2 : Q,
      w1 <= w2 ->
      exists v1 v2 : Q,
        calculate_comfort_index (JNum t) (JNum h) (JNum w1) = Ok (JNum v1) /\
        calculate_comfort_index (JNum t) (JNum h) (JNum w2) = Ok (JNum v2) /\
        v2 <= v1) /\
  (forall t1 t2 h w : Q,
      t1 <= t2 ->
      exists v1 v2 : Q,
        calculate_comfort_index (JNum t1) (JNum h) (JNum w) = Ok (JNum v1) /\
        calculate_comfort_index (JNum t2) (JNum h) (JNum w) = Ok (JNum v2) /\
        v1 <= v2).
Proof.
  split; [| split].
  - intros t h1 h2 w Hle.
    exists (comfort_value t h1 w), (comfort_value t h2 w).
    split; [reflexivity | split; [reflexivity |]].
    unfold comfort_value.
    set (a := Qmax 0 (Qmin t 40)). set (b := Qmin w 10).
    constant_divisors. lra.
  - intros t h w1 w2 Hle.
    exists (comfort_value t h w1), (comfort_value t h w2).
    split; [reflexivity | split; [reflexivity |]].
    unfold comfort_value.
    assert (Hm : Qmin w1 10 <= Qmin w2 10) by (apply Q.min_le_compat_r; exact Hle).
    set (a := Qmax 0 (Qmin t 40)).
    set (b1 := Qmin w1 10) in *. set (b2 := Qmin w2 10) in *.
    constant_divisors. lra.
  - intros t1 t2 h w Hle.
    exists (comfort_value t1 h w), (comfort_value t2 h w).
    split; [reflexivity | split; [reflexivity |]].
    unfold comfort_value.
    assert (Hm : clamp t1 0 40 <= clamp t2 0 40) by (apply clamp_mono; exact Hle).
    unfold clamp in Hm.
    set (a1 := Qmax 0 (Qmin t1 40)) in *. set (a2 := Qmax 0 (Qmin t2 40)) in *.
    set (b := Qmin w 10). constant_divisors. lra.
Qed.

Lemma calculate_comfort_index_monotone_witness :
  (exists v1 v2 : Q,
      calculate_comfort_index (JNum 20) (JNum 30) (JNum 5) = Ok (JNum v1) /\
      calculate_comfort_index (JNum 20) (JNum 70) (JNum 5) = Ok (JNum v2) /\
      v2 <= v1) /\
  (exists v1 v2 : Q,
      calculate_comfort_index (JNum 20) (JNum 50) (JNum 2) = Ok (JNum v1) /\
      calculate_comfort_index (JNum 20) (JNum 50) (JNum 8) = Ok (JNum v2) /\
      v2 <= v1) /\
  (exists v1 v2 : Q,
      calculate_comfort_index (JNum 10) (JNum 50) (JNum 5) = Ok (JNum v1) /\
      calculate_comfort_index (JNum 30) (JNum 50) (JNum 5) = Ok (JNum v2) /\
      v1 <= v2).
Proof.
  destruct calculate_comfort_index_monotone as [Hh [Hw Ht]].
  split; [| split].
  - apply (Hh 20 30 70 5). vm_compute; discriminate.
  - apply (Hw 20 50 2 8). vm_compute; discriminate.
  - apply (Ht 10 30 50 5). vm_compute; discriminate.
Defined.

(** C7: [convert_temperatures(None)] is [(None, None)]; on a number [k] it
    returns [(k - 273.15, (k - 273.15) * 9 / 5 + 32)]; at 273.15 that is
    [(0, 32)]. *)
Theorem convert_temperatures_spec :
  convert_temperatures JNull = Ok (JNull, JNull) /\
  (forall k : Q,
      exists c f : Q,
        convert_temperatures (JNum k) = Ok (JNum c, JNum f) /\
        c == k - 273.15 /\
        f == (k - 273.15) * 9 / 5 + 32) /\
  (exists c f : Q,
      convert_temperatures (JNum 273.15) = Ok (JNum c, JNum f) /\
      c == 0 /\ f == 32).
Proof.
  split; [reflexivity | split].
  - intros k. exists (k - 273.15), ((k - 273.15) * 9 / 5 + 32).
    split; [reflexivity | split; reflexivity].
  - exists (273.15 - 273.15), ((273.15 - 273.15) * 9 / 5 + 32).
    split; [reflexivity | split; vm_compute; reflexivity].
Qed.

Local Close Scope Q_scope.

(** ** Dictionaries *)

Lemma dict_get_set_same (d : dict) (k : string) (v : json) :
  dict_get (dict_set d k v) k = Some v.
Proof.
  induction d as [| [k' v'] d IH]; simpl.
  - now rewrite String.eqb_refl.
  - destruct (String.eqb k' k) eqn:E; simpl; rewrite E; [reflexivity | exact IH].
Qed.

Lemma dict_get_set_other (d : dict) (k k' : string) (v : json) :
  k <> k' -> dict_get (dict_set d k v) k' = dict_get d k'.
Proof.
  intros Hne. induction d as [| [k0 v0] d IH]; simpl.
  - destruct (String.eqb k k') eqn:E; [| reflexivity].
    apply String.eqb_eq in E. contradiction.
  - destruct (String.eqb k0 k) eqn:E; simpl.
    + apply String.eqb_eq in E. subst k0.
      destruct (String.eqb k k') eqn:E'; [| reflexivity].
      apply String.eqb_eq in E'. contradiction.
    + destruct (String.eqb k0 k'); [reflexivity | exact IH].
Qed.

Lemma py_setitem2_ok (d inner : dict) (k1 k2 : string) (v : json) :
  dict_get d k1 = Some (JObj inner) ->
  py_setitem2 d k1 k2 v = Ok (dict_set d k1 (JObj (dict_set inner k2 v))).
Proof. intros H. unfold py_setitem2. now rewrite H. Qed.

Lemma py_setitem2_inv (d d' : dict) (k1 k2 : string) (v : json) :
  py_setitem2 d k1 k2 v = Ok d' ->
  exists inner, dict_get d k1 = Some (JObj inner) /\
                d' = dict_set d k1 (JObj (dict_set inner k2 v)).
Proof.
  unfold py_setitem2. destruct (dict_get d k1) as [[| | | | | inner] |];
    intros H; try discriminate.
  exists inner. split; [reflexivity | congruence].
Qed.

(** ** The overlay of the geocoding fields *)

Lemma overlay_location_inv (weather_data cc st cn r : json) :
  overlay_location weather_data cc st cn = Ok r ->
  overlaid r cc st cn /\
  exists d d', weather_data = JObj d /\ r = JObj d' /\
    forall k, k <> "sys" -> k <> "name" -> dict_get d' k = dict_get d k.
Proof.
  unfold overlay_location. destruct weather_data as [| | | | | d]; try discriminate.
  set (d0 := if negb (dict_mem d "sys") then dict_set d "sys" (JObj []) else d).
  assert (Hd0 : forall k, k <> "sys" -> dict_get d0 k = dict_get d k).
  { intros k Hk. unfold d0. destruct (negb (dict_mem d "sys")); [| reflexivity].
    apply dict_get_set_other. congruence. }
  destruct (py_setitem2 d0 "sys" "country" cc) as [d1 |] eqn:E1; simpl; [| discriminate].
  apply py_setitem2_inv in E1. destruct E1 as [s0 [Hs0 ->]].
  rewrite (py_setitem2_ok _ (dict_set s0 "country" cc)) by apply dict_get_set_same.
  simpl. intros H. injection H as <-. split.
  - exists (dict_set
              (dict_set (dict_set d0 "sys" (JObj (dict_set s0 "country" cc))) "sys"
                 (JObj (dict_set (dict_set s0 "country" cc) "state" st))) "name" cn),
      (dict_set (dict_set s0 "country" cc) "state" st).
    split; [reflexivity | split; [apply dict_get_set_same | split; [| split]]].
    + rewrite dict_get_set_other by discriminate. apply dict_get_set_same.
    + rewrite dict_get_set_other by discriminate. apply dict_get_set_same.
    + apply dict_get_set_same.
  - eexists; eexists. split; [reflexivity | split; [reflexivity |]].
    intros k Hsys Hname.
    rewrite !dict_get_set_other by congruence. now apply Hd0.
Qed.

Lemma overlay_location_ok (d : dict) (cc st cn : json) :
  absent_or is_obj (dict_get d "sys") = true ->
  exists r, overlay_location (JObj d) cc st cn = Ok r.
Proof.
  intros Hsys. unfold overlay_location, dict_mem.
  destruct (dict_get d "sys") as [v |] eqn:E; simpl.
  - destruct v; simpl in Hsys; try discriminate.
    rewrite (py_setitem2_ok _ _ _ _ _ E). simpl.
    rewrite (py_setitem2_ok _ (dict_set d0 "country" cc)) by apply dict_get_set_same.
    simpl. eexists. reflexivity.
  - rewrite (py_setitem2_ok _ []) by apply dict_get_set_same. simpl.
    rewrite (py_setitem2_ok _ (dict_set [] "country" cc)) by apply dict_get_set_same.
    simpl. eexists. reflexivity.
Qed.

(** C8: on a geocode match with coordinates and a weather payload whose
    [sys] is absent or an object, [finalize_weather_data] succeeds and the
    payload it returns carries the match's name, country and state, whatever
    the provider had put there; the other entries are untouched.  A payload
    without [sys] is the case [dict_get d "sys" = None] of the hypothesis. *)
Theorem finalize_weather_data_overlay
    (p : provider) (t : trace) (g : dict) (rest : list json)
    (lat lon : json) (api_key : string) (d : dict) :
  dict_get g "lat" = Some lat ->
  dict_get g "lon" = Some lon ->
  p t (Weather lat lon api_key) = Ok (JObj d) ->
  absent_or is_obj (dict_get d "sys") = true ->
  exists d' : dict,
    finalize_weather_data (JArr (JObj g :: rest)) api_key p t
      = (Ok (JObj d'), t ++ [Weather lat lon api_key]) /\
    overlaid (JObj d') (field1 g "country") (field1 g "state") (field1 g "name") /\
    (forall k, k <> "sys" -> k <> "name" -> dict_get d' k = dict_get d k).
Proof.
  intros Hlat Hlon Hp Hsys.
  destruct (overlay_location_ok d (field1 g "country") (field1 g "state")
              (field1 g "name") Hsys) as [r Hr].
  destruct (overlay_location_inv _ _ _ _ _ Hr) as [Hov [d0 [d' [E0 [E' Hframe]]]]].
  injection E0 as <-. subst r. exists d'.
  split; [| split; assumption].
  unfold finalize_weather_data, bind, lift, get_weather_by_latlon, call. simpl.
  rewrite Hlat, Hlon, Hp. unfold field1 in Hr. now rewrite Hr.
Qed.

(** ** Resolution: what a run returns and which requests it sends *)

Lemma overlaid_truthy (x cc st cn : json) : overlaid x cc st cn -> truthy x = true.
Proof.
  intros [d [sys [-> [Hname _]]]]. destruct d; [discriminate | reflexivity].
Qed.

Lemma resolved_truthy (x : json) : resolved x -> truthy x = true -> exists d, x = JObj d.
Proof.
  intros [-> | [cc [st [cn [d [sys [-> _]]]]]]] H; [discriminate | now exists d].
Qed.

(** [finalize_weather_data] sends at most the weather request, and what it
    returns has been overlaid. *)
Lemma finalize_weather_data_run (geo : json) (key : string) (p : provider) (t : trace) :
  exists r t1,
    finalize_weather_data geo key p t = (r, t ++ t1) /\
    (forall w, r = Ok w -> exists cc st cn, overlaid w cc st cn).
Proof.
  unfold finalize_weather_data. unfold_m.
  destruct (py_index0 geo) as [g0 | e]; simpl;
    [| exists (Raise e), []; rewrite app_nil_r; split; [reflexivity | discriminate]].
  destruct (py_getitem g0 "lat") as [lat | e]; simpl;
    [| exists (Raise e), []; rewrite app_nil_r; split; [reflexivity | discriminate]].
  destruct (py_getitem g0 "lon") as [lon | e]; simpl;
    [| exists (Raise e), []; rewrite app_nil_r; split; [reflexivity | discriminate]].
  destruct (py_get g0 "country" JNull) as [cc | e]; simpl;
    [| exists (Raise e), []; rewrite app_nil_r; split; [reflexivity | discriminate]].
  destruct (py_get g0 "state" JNull) as [st | e]; simpl;
    [| exists (Raise e), []; rewrite app_nil_r; split; [reflexivity | discriminate]].
  destruct (py_get g0 "name" JNull) as [cn | e]; simpl;
    [| exists (Raise e), []; rewrite app_nil_r; split; [reflexivity | discriminate]].
  destruct (p t (Weather lat lon key)) as [wd | e]; simpl;
    [| exists (Raise e), [Weather lat lon key]; split; [reflexivity | discriminate]].
  exists (overlay_location wd cc st cn), [Weather lat lon key].
  split; [reflexivity |].
  intros w Hw. exists cc, st, cn. now apply (overlay_location_inv _ _ _ _ _ Hw).
Qed.

(** A fallback attempt never raises; it sends its geocode request first. *)
Lemma fallback_attempt_run (fq key : string) (p : provider) (t : trace) :
  exists o t1,
    fallback_attempt fq key p t = (Ok o, t ++ Geocode fq key :: t1) /\
    (forall w, o = Some w -> exists cc st cn, overlaid w cc st cn).
Proof.
  unfold fallback_attempt. unfold_m.
  destruct (p t (Geocode fq key)) as [geo | e]; simpl;
    [| exists None, []; split; [reflexivity | discriminate]].
  destruct (truthy geo);
    [| exists None, []; split; [reflexivity | discriminate]].
  destruct (finalize_weather_data_run geo key p (t ++ [Geocode fq key]))
    as [r [t1 [Hrun Hov]]].
  rewrite Hrun, <- app_assoc. simpl.
  destruct r as [w | e].
  - exists (Some w), t1. split; [reflexivity |].
    intros w' Hw'. injection Hw' as <-. now apply Hov.
  - exists None, t1. split; [reflexivity | discriminate].
Qed.

Lemma fallback_attempt_error (fq key : string) (p : provider) (t : trace) (e : exn) :
  p t (Geocode fq key) = Raise e ->
  fallback_attempt fq key p t = (Ok None, t ++ [Geocode fq key]).
Proof.
  intros Hp. unfold fallback_attempt. unfold_m. now rewrite Hp.
Qed.

Lemma fallback_A_run (parts : list string) (key : string) (p : provider) (t : trace) :
  exists o t1,
    fallback_A parts key p t = (Ok o, t ++ t1) /\
    (forall w, o = Some w -> exists cc st cn, overlaid w cc st cn).
Proof.
  unfold fallback_A.
  destruct (Nat.leb 2 (List.length parts));
    [| exists None, []; rewrite app_nil_r; split; [reflexivity | discriminate]].
  destruct (table_get COUNTRY_SYNONYMS (normalized_last parts)) as [canonical |];
    [| exists None, []; rewrite app_nil_r; split; [reflexivity | discriminate]].
  destruct (fallback_attempt_run
              (join_commas (removelast parts) ++ "," ++ canonical) key p t)
    as [o [t1 [Hrun Hov]]].
  exists o, (Geocode (join_commas (removelast parts) ++ "," ++ canonical) key :: t1).
  split; assumption.
Qed.

Lemma fallback_B_run (q : string) (parts : list string) (key : string)
    (p : provider) (t : trace) :
  exists o t1,
    fallback_B q parts key p t = (Ok o, t ++ t1) /\
    (forall w, o = Some w -> exists cc st cn, overlaid w cc st cn).
Proof.
  unfold fallback_B.
  destruct (Nat.leb 2 (List.length parts));
    [| exists None, []; rewrite app_nil_r; split; [reflexivity | discriminate]].
  destruct (set_mem (normalized_last parts) US_STATE_ABBREVS);
    [| exists None, []; rewrite app_nil_r; split; [reflexivity | discriminate]].
  destruct (fallback_attempt_run (q ++ ", US") key p t) as [o [t1 [Hrun Hov]]].
  exists o, (Geocode (q ++ ", US") key :: t1). split; assumption.
Qed.

Lemma try_geocode_fallbacks_run (q key : string) (p : provider) (t : trace) :
  exists w t1,
    try_geocode_fallbacks q key p t = (Ok w, t ++ t1) /\ resolved w.
Proof.
  unfold try_geocode_fallbacks, bind.
  destruct (fallback_A_run (map strip (split_commas q)) key p t)
    as [a [t1 [HA HovA]]].
  rewrite HA. destruct a as [w |].
  - exists w, t1. split; [reflexivity | right; now apply HovA].
  - destruct (fallback_B_run q (map strip (split_commas q)) key p (t ++ t1))
      as [b [t2 [HB HovB]]].
    rewrite HB, <- app_assoc. destruct b as [w |].
    + exists w, (t1 ++ t2). split; [reflexivity | right; now apply HovB].
    + exists JNull, (t1 ++ t2). split; [reflexivity | now left].
Qed.

(** Resolution never raises: it returns [None] or an overlaid payload, and
    its first request is the direct geocode of the query. *)
Lemma get_weather_data_geocoded_run (q key : string) (p : provider) (t : trace) :
  exists w t1,
    get_weather_data_geocoded q key p t = (Ok w, t ++ Geocode q key :: t1) /\
    resolved w.
Proof.
  unfold get_weather_data_geocoded. unfold_m.
  destruct (p t (Geocode q key)) as [geo | e]; simpl;
    [| exists JNull, []; split; [reflexivity | now left]].
  destruct (truthy geo).
  - destruct (finalize_weather_data_run geo key p (t ++ [Geocode q key]))
      as [r [t1 [Hrun Hov]]].
    rewrite Hrun, <- app_assoc. simpl. destruct r as [w | e].
    + exists w, t1. split; [reflexivity | right; now apply Hov].
    + exists JNull, t1. split; [reflexivity | now left].
  - destruct (try_geocode_fallbacks_run q key p (t ++ [Geocode q key]))
      as [w [t1 [Hrun Hres]]].
    rewrite Hrun, <- app_assoc. simpl.
    exists (if truthy w then w else JNull), t1. split.
    + destruct (truthy w); reflexivity.
    + destruct (truthy w); [assumption | now left].
Qed.

(** ** The loop body *)

Lemma loop_body_skip (key : string) (acc : list dict) (q : string)
    (p : provider) (t : trace) :
  strip q = "" -> loop_body key acc q p t = (Ok acc, t).
Proof. intros E. unfold loop_body. cbv zeta. rewrite E. reflexivity. Qed.

Lemma loop_body_query (key : string) (acc : list dict) (q : string)
    (p : provider) (t : trace) :
  strip q <> "" ->
  loop_body key acc q p t =
    (let (r, t') := get_weather_data_geocoded (strip q) key p t in
     match r with
     | Ok weather_data =>
         (Ok (acc ++ [if negb (truthy weather_data)
                      then fetch_error_record (strip q)
                      else process_weather_data (strip q) weather_data]), t')
     | Raise e => (Raise e, t')
     end).
Proof.
  intros Hne. unfold loop_body. cbv zeta. unfold truthy at 1.
  destruct (String.eqb (strip q) "") eqn:E.
  - apply String.eqb_eq in E. contradiction.
  - change (negb (negb false)) with false. unfold bind, ret. cbv beta iota.
    destruct (get_weather_data_geocoded (strip q) key p t) as [[wd | e] t'];
      [destruct (truthy wd) |]; reflexivity.
Qed.

(** ** Provider errors during resolution *)

(** C1, as amended: a provider error on the direct geocode attempt ends the
    resolution, no fallback is attempted and the query yields the
    could-not-fetch failure; a provider error on the geocode request of a
    fallback attempt is swallowed, the attempt counting as failed; and when
    that happens to the country-synonym attempt, what follows is the US-state
    fallback, run after the failed request. *)
Theorem provider_errors_in_resolution :
  (forall (p : provider) (t : trace) (key : string) (acc : list dict)
          (location_query : string) (e : exn),
      strip location_query <> "" ->
      p t (Geocode (strip location_query) key) = Raise e ->
      loop_body key acc location_query p t
        = (Ok (acc ++ [fetch_error_record (strip location_query)]),
           t ++ [Geocode (strip location_query) key])) /\
  (forall (p : provider) (t : trace) (key fallback_query : string) (e : exn),
      p t (Geocode fallback_query key) = Raise e ->
      fallback_attempt fallback_query key p t
        = (Ok None, t ++ [Geocode fallback_query key])) /\
  (forall (p : provider) (t : trace) (key q canonical : string) (e : exn),
      let parts := map strip (split_commas q) in
      let fallback_query := (join_commas (removelast parts) ++ "," ++ canonical)%string in
      2 <= List.length parts ->
      table_get COUNTRY_SYNONYMS (normalized_last parts) = Some canonical ->
      p t (Geocode fallback_query key) = Raise e ->
      try_geocode_fallbacks q key p t
        = (b <- fallback_B q parts key ;;
           match b with
           | Some weather_data => ret weather_data
           | None => ret JNull
           end) p (t ++ [Geocode fallback_query key])).
Proof.
  split; [| split].
  - intros p t key acc location_query e Hne Hp.
    rewrite (loop_body_query key acc location_query p t Hne).
    unfold get_weather_data_geocoded. unfold_m. rewrite Hp. reflexivity.
  - intros p t key fq e Hp. now apply fallback_attempt_error with (e := e).
  - intros p t key q canonical e parts fallback_query Hlen Hsyn Hp.
    unfold try_geocode_fallbacks. fold parts.
    unfold bind at 1. unfold fallback_A.
    apply Nat.leb_le in Hlen. rewrite Hlen, Hsyn.
    fold fallback_query.
    rewrite (fallback_attempt_error fallback_query key p t e Hp). reflexivity.
Qed.

Lemma provider_errors_in_resolution_witness :
  loop_body "k" [] " Boston, MA " flaky_provider []
    = (Ok [fetch_error_record "Boston, MA"], [Geocode "Boston, MA" "k"]) /\
  fallback_attempt "Boston, MA, US" "k" failing_provider []
    = (Ok None, [Geocode "Boston, MA, US" "k"]) /\
  try_geocode_fallbacks "London, UK" "k" failing_provider []
    = (b <- fallback_B "London, UK" ["London"; "UK"] "k" ;;
       match b with
       | Some weather_data => ret weather_data
       | None => ret JNull
       end) failing_provider [Geocode "London,GB" "k"].
Proof.
  destruct provider_errors_in_resolution as [Hdirect [Hswallow Hnext]].
  split; [| split].
  - apply (Hdirect flaky_provider [] "k" [] " Boston, MA " RequestException).
    + vm_compute. discriminate.
    + reflexivity.
  - apply (Hswallow failing_provider [] "k" "Boston, MA, US" RequestException).
    reflexivity.
  - apply (Hnext failing_provider [] "k" "London, UK" "GB" RequestException).
    + vm_compute. lia.
    + reflexivity.
    + reflexivity.
Defined.

(** C1 as written fails: the first request, the direct geocode of
    "Boston, MA", raises; the US-state fallback run after it would resolve
    the query and give a success; yet the loop records a failure and sends
    no second request. *)
Lemma transient_direct_error_is_failure :
  flaky_provider [] (Geocode "Boston, MA" "k") = Raise RequestException /\
  (exists w t',
      fallback_B "Boston, MA" (map strip (split_commas "Boston, MA")) "k"
        flaky_provider [Geocode "Boston, MA" "k"] = (Ok (Some w), t') /\
      is_success (process_weather_data "Boston, MA" w) = true) /\
  process_batch "k" ["Boston, MA"] [] flaky_provider []
    = (Ok [fetch_error_record "Boston, MA"], [Geocode "Boston, MA" "k"]) /\
  is_success (fetch_error_record "Boston, MA") = false.
Proof.
  split; [reflexivity | split; [| split; reflexivity]].
  eexists. eexists. split; [vm_compute; reflexivity | vm_compute; reflexivity].
Qed.

(** ** The country-synonym fallback *)

Lemma try_geocode_fallbacks_synonym (q key : string) (p : provider) (t : trace) :
  let parts := map strip (split_commas q) in
  2 <= List.length parts ->
  normalized_last parts = "UK" ->
  exists w t1,
    try_geocode_fallbacks q key p t
      = (Ok w, t ++ Geocode (join_commas (removelast parts) ++ ",GB") key :: t1) /\
    resolved w.
Proof.
  intros parts Hlen Hlast.
  unfold try_geocode_fallbacks. fold parts. unfold bind at 1. unfold fallback_A.
  apply Nat.leb_le in Hlen. rewrite Hlen, Hlast.
  change (table_get COUNTRY_SYNONYMS "UK") with (Some "GB"). cbv beta iota.
  change ("," ++ "GB")%string with ",GB".
  destruct (fallback_attempt_run (join_commas (removelast parts) ++ ",GB") key p t)
    as [o [t1 [Hrun Hov]]].
  rewrite Hrun. destruct o as [w |].
  - exists w, t1. split; [reflexivity | right; now apply Hov].
  - unfold bind, fallback_B. rewrite Hlen, Hlast.
    exists JNull, t1. split; [reflexivity | now left].
Qed.

(** C2, as amended: when the direct geocode of a query returns nothing and
    the last comma-separated part, stripped, uppercased and without periods,
    is "UK", the next request geocodes the stripped parts before the last,
    joined by commas without spaces, followed by ",GB"; "London, UK" is
    retried as "London,GB". *)
Theorem country_synonym_retry :
  (forall (p : provider) (t : trace) (key q : string) (geo : json),
      let parts := map strip (split_commas q) in
      p t (Geocode q key) = Ok geo ->
      truthy geo = false ->
      2 <= List.length parts ->
      normalized_last parts = "UK" ->
      exists w t1,
        get_weather_data_geocoded q key p t
          = (Ok w,
             t ++ Geocode q key
               :: Geocode (join_commas (removelast parts) ++ ",GB") key :: t1)) /\
  (forall (p : provider) (t : trace) (key : string) (geo : json),
      p t (Geocode "London, UK" key) = Ok geo ->
      truthy geo = false ->
      exists w t1,
        get_weather_data_geocoded "London, UK" key p t
          = (Ok w, t ++ Geocode "London, UK" key :: Geocode "London,GB" key :: t1)).
Proof.
  assert (H : forall (p : provider) (t : trace) (key q : string) (geo : json),
             let parts := map strip (split_commas q) in
             p t (Geocode q key) = Ok geo ->
             truthy geo = false ->
             2 <= List.length parts ->
             normalized_last parts = "UK" ->
             exists w t1,
               get_weather_data_geocoded q key p t
                 = (Ok w,
                    t ++ Geocode q key
                      :: Geocode (join_commas (removelast parts) ++ ",GB") key :: t1)).
  { intros p t key q geo parts Hp Hempty Hlen Hlast.
    destruct (try_geocode_fallbacks_synonym q key p (t ++ [Geocode q key]) Hlen Hlast)
      as [w [t1 [Hrun _]]].
    fold parts in Hrun.
    unfold get_weather_data_geocoded. unfold_m. rewrite Hp, Hempty, Hrun.
    rewrite <- app_assoc. simpl.
    exists (if truthy w then w else JNull), t1. destruct (truthy w); reflexivity. }
  split; [exact H |].
  intros p t key geo Hp Hempty.
  apply (H p t key "London, UK" geo Hp Hempty); [vm_compute; lia | reflexivity].
Qed.

Lemma country_synonym_retry_witness :
  (exists w t1,
      get_weather_data_geocoded "St. Ives , u.k." "k" empty_provider []
        = (Ok w, [] ++ Geocode "St. Ives , u.k." "k" :: Geocode "St. Ives,GB" "k" :: t1)) /\
  (exists w t1,
      get_weather_data_geocoded "London, UK" "k" empty_provider []
        = (Ok w, [] ++ Geocode "London, UK" "k" :: Geocode "London,GB" "k" :: t1)).
Proof.
  destruct country_synonym_retry as [Hgen Hlondon].
  split.
  - apply (Hgen empty_provider [] "k" "St. Ives , u.k." (JArr []));
      [reflexivity | reflexivity | vm_compute; lia | reflexivity].
  - apply (Hlondon empty_provider [] "k" (JArr [])); reflexivity.
Defined.

(** C2 as written fails at its own example: after the empty direct geocode
    of "London, UK" the one further request is for "London,GB"; no request
    for "London, GB" is ever sent. *)
Lemma london_uk_is_not_retried_with_a_space :
  empty_provider [] (Geocode "London, UK" "k") = Ok (JArr []) /\
  snd (get_weather_data_geocoded "London, UK" "k" empty_provider [])
    = [Geocode "London, UK" "k"; Geocode "London,GB" "k"] /\
  ~ In (Geocode "London, GB" "k")
       (snd (get_weather_data_geocoded "London, UK" "k" empty_provider [])).
Proof.
  split; [reflexivity | split; [reflexivity |]].
  vm_compute. intros [H | [H | []]]; discriminate H.
Qed.

(** ** Shaping one payload *)

(** On an extractable payload the extraction does not raise, and the [try]
    body is the test for completeness followed by the arithmetic. *)
Lemma shape_weather_data_extractable (oi : string) (d : dict) :
  extractable d = true ->
  shape_weather_data oi (JObj d) =
    if negb (complete d) then Ok (incomplete_record oi d)
    else
      (temps <-- convert_temperatures (field2 d "main" "temp") ;;
       comfort <-- calculate_comfort_index (fst temps) (field2 d "main" "humidity")
                     (field2 d "wind" "speed") ;;
       Ok [("original_input", JStr oi);
           ("city_name", field1 d "name");
           ("country_code", field2 d "sys" "country");
           ("state", field2 d "sys" "state");
           ("weather_desc", description_of d);
           ("temp_kelvin", field2 d "main" "temp");
           ("temp_celsius", fst temps);
           ("temp_fahrenheit", snd temps);
           ("humidity", field2 d "main" "humidity");
           ("wind_speed", field2 d "wind" "speed");
           ("comfort_index", comfort)])%res.
Proof.
  unfold shape_weather_data, extractable, complete, incomplete_record,
    description_of, field2, field1, py_get.
  destruct (dict_get d "main") as [[| | | | | m] |]; simpl; try discriminate;
  destruct (dict_get d "wind") as [[| | | | | w] |]; simpl; try discriminate;
  destruct (dict_get d "sys") as [[| | | | | s] |]; simpl; try discriminate;
  destruct (dict_get d "weather") as [[| | | | [| [| | | | | c] l] |] |];
    simpl; try discriminate; intros _;
  repeat match goal with
         | |- context [is_none ?x] => destruct (is_none x); simpl
         end;
  try reflexivity;
  destruct (truthy match dict_get d "name" with Some v => v | None => JNull end);
  reflexivity.
Qed.

Lemma numbers_do_not_raise (temp hum wind : json) :
  is_number_or_none temp = true -> is_none temp = false ->
  is_number_or_none hum = true -> is_none hum = false ->
  is_number_or_none wind = true -> is_none wind = false ->
  exists c f v : Q,
    convert_temperatures temp = Ok (JNum c, JNum f) /\
    calculate_comfort_index (JNum c) hum wind = Ok (JNum v).
Proof.
  destruct temp, hum, wind; simpl; intros; try discriminate;
    eexists; eexists; eexists; split; reflexivity.
Qed.

Lemma complete_true_iff (d : dict) :
  complete d = true <->
  field2 d "main" "temp" <> JNull /\
  field2 d "main" "humidity" <> JNull /\
  field2 d "wind" "speed" <> JNull /\
  truthy (field1 d "name") = true.
Proof.
  unfold complete. rewrite !andb_true_iff, !negb_true_iff.
  assert (Hn : forall x, is_none x = false <-> x <> JNull).
  { intros x. destruct x; simpl; split; intros H; congruence. }
  rewrite !Hn. tauto.
Qed.

Lemma process_weather_data_incomplete (oi : string) (d : dict) :
  extractable d = true -> complete d = false ->
  process_weather_data oi (JObj d) = incomplete_record oi d.
Proof.
  intros Hex Hc. unfold process_weather_data.
  now rewrite (shape_weather_data_extractable oi d Hex), Hc.
Qed.

Lemma process_weather_data_complete (oi : string) (d : dict) :
  well_shaped d = true -> complete d = true ->
  exists c f v : Q,
    process_weather_data oi (JObj d) =
      [("original_input", JStr oi);
       ("city_name", field1 d "name");
       ("country_code", field2 d "sys" "country");
       ("state", field2 d "sys" "state");
       ("weather_desc", description_of d);
       ("temp_kelvin", field2 d "main" "temp");
       ("temp_celsius", JNum c);
       ("temp_fahrenheit", JNum f);
       ("humidity", field2 d "main" "humidity");
       ("wind_speed", field2 d "wind" "speed");
       ("comfort_index", JNum v)].
Proof.
  unfold well_shaped, complete. rewrite !andb_true_iff, !negb_true_iff.
  intros [[[Hex Ht] Hh] Hw] [[[Ct Ch] Cw] Cn].
  destruct (numbers_do_not_raise _ _ _ Ht Ct Hh Ch Hw Cw) as [c [f [v [Hconv Hci]]]].
  exists c, f, v. unfold process_weather_data.
  rewrite (shape_weather_data_extractable oi d Hex).
  unfold complete. rewrite Ct, Ch, Cw, Cn. simpl negb. cbv iota.
  rewrite Hconv. simpl. rewrite Hci. reflexivity.
Qed.

(** The success record, its derived values tied to the payload's. *)
Lemma process_weather_data_success (oi : string) (d : dict) :
  well_shaped d = true -> complete d = true ->
  exists k c f v : Q,
    py_num (field2 d "main" "temp") = Ok k /\
    (c == k - 273.15)%Q /\
    (f == (k - 273.15) * 9 / 5 + 32)%Q /\
    calculate_comfort_index (JNum c) (field2 d "main" "humidity")
      (field2 d "wind" "speed") = Ok (JNum v) /\
    process_weather_data oi (JObj d) =
      [("original_input", JStr oi);
       ("city_name", field1 d "name");
       ("country_code", field2 d "sys" "country");
       ("state", field2 d "sys" "state");
       ("weather_desc", description_of d);
       ("temp_kelvin", field2 d "main" "temp");
       ("temp_celsius", JNum c);
       ("temp_fahrenheit", JNum f);
       ("humidity", field2 d "main" "humidity");
       ("wind_speed", field2 d "wind" "speed");
       ("comfort_index", JNum v)].
Proof.
  unfold well_shaped, complete. rewrite !andb_true_iff, !negb_true_iff.
  intros [[[Hex Ht] Hh] Hw] [[[Ct Ch] Cw] Cn].
  destruct (numbers_do_not_raise _ _ _ Ht Ct Hh Ch Hw Cw) as [c [f [v [Hconv Hci]]]].
  assert (Hk : exists k : Q,
             py_num (field2 d "main" "temp") = Ok k /\
             (c == k - 273.15)%Q /\ (f == (k - 273.15) * 9 / 5 + 32)%Q).
  { unfold convert_temperatures in Hconv. rewrite Ct in Hconv.
    destruct (py_num (field2 d "main" "temp")) as [k |]; simpl in Hconv;
      [| discriminate Hconv].
    injection Hconv as <- <-. exists k. repeat split; reflexivity. }
  destruct Hk as [k [Hk [Hc Hf]]].
  exists k, c, f, v.
  split; [exact Hk | split; [exact Hc | split; [exact Hf | split; [exact Hci |]]]].
  unfold process_weather_data.
  rewrite (shape_weather_data_extractable oi d Hex).
  unfold complete. rewrite Ct, Ch, Cw, Cn. simpl negb. cbv iota.
  rewrite Hconv. simpl. rewrite Hci. reflexivity.
Qed.

(** Every record the [try] produces names the query it belongs to. *)
Lemma process_weather_data_original_input (oi : string) (wd : json) :
  dict_get (process_weather_data oi wd) "original_input" = Some (JStr oi).
Proof.
  unfold process_weather_data.
  destruct (shape_weather_data oi wd) as [r |] eqn:E; [| reflexivity].
  unfold shape_weather_data, rbind in E.
  repeat match type of E with
         | context [match ?x with Ok _ => _ | Raise _ => _ end] =>
             destruct x; try discriminate E
         | context [if ?b then _ else _] => destruct b; try discriminate E
         end;
  injection E as <-; reflexivity.
Qed.

(** A payload that resolution returned makes the loop append the record
    shaped from it. *)
Lemma loop_body_resolved (key : string) (acc : list dict) (q : string)
    (p : provider) (t t' : trace) (d : dict) :
  strip q <> "" ->
  get_weather_data_geocoded (strip q) key p t = (Ok (JObj d), t') ->
  loop_body key acc q p t
    = (Ok (acc ++ [process_weather_data (strip q) (JObj d)]), t').
Proof.
  intros Hne Hrun. rewrite (loop_body_query key acc q p t Hne), Hrun.
  destruct (get_weather_data_geocoded_run (strip q) key p t) as [w [t1 [Hrun' Hres]]].
  rewrite Hrun in Hrun'. injection Hrun' as <- _.
  destruct Hres as [H | [cc [st [cn Hov]]]]; [discriminate |].
  now rewrite (overlaid_truthy _ _ _ _ Hov).
Qed.

(** ** Success and failure of one query *)

(** C3, as amended: for a query that resolves to a payload typed as the
    provider documents it, the record appended is a success exactly when
    temperature, humidity and wind speed are not [None] and the city name is
    neither [None] nor empty; otherwise it is the incomplete-data failure,
    which carries the city name (or "Unknown"), the country code and the
    state. *)
Theorem success_iff_complete
    (p : provider) (t t' : trace) (key : string) (acc : list dict)
    (q : string) (d : dict) :
  strip q <> "" ->
  get_weather_data_geocoded (strip q) key p t = (Ok (JObj d), t') ->
  well_shaped d = true ->
  exists r : dict,
    loop_body key acc q p t = (Ok (acc ++ [r]), t') /\
    (is_success r = true <->
     field2 d "main" "temp" <> JNull /\
     field2 d "main" "humidity" <> JNull /\
     field2 d "wind" "speed" <> JNull /\
     truthy (field1 d "name") = true) /\
    (is_success r = false ->
     r = [("original_input", JStr (strip q));
          ("city_name", py_or (field1 d "name") (JStr "Unknown"));
          ("country_code", field2 d "sys" "country");
          ("state", field2 d "sys" "state");
          ("error", JStr incomplete_data_error)]).
Proof.
  intros Hne Hrun Hws.
  exists (process_weather_data (strip q) (JObj d)).
  split; [now apply loop_body_resolved |].
  rewrite <- complete_true_iff.
  destruct (complete d) eqn:C.
  - destruct (process_weather_data_complete (strip q) d Hws C) as [c [f [v ->]]].
    split; [split; reflexivity | discriminate].
  - assert (Hex : extractable d = true).
    { unfold well_shaped in Hws. rewrite !andb_true_iff in Hws. tauto. }
    rewrite (process_weather_data_incomplete (strip q) d Hex C).
    split; [split; discriminate | reflexivity].
Qed.

(** C9: for a query that resolves to a well-typed payload with temperature,
    humidity, wind speed and city name present, a missing or empty [weather]
    list still gives a success: the record appended is the eleven-entry
    success record, with the payload's city, country, state, temperature,
    humidity and wind speed, the Celsius and Fahrenheit values computed from
    the temperature, the comfort index computed from them, and the
    description "N/A". *)
Theorem missing_description_is_na
    (p : provider) (t t' : trace) (key : string) (acc : list dict)
    (q : string) (d : dict) :
  strip q <> "" ->
  get_weather_data_geocoded (strip q) key p t = (Ok (JObj d), t') ->
  well_shaped d = true ->
  field2 d "main" "temp" <> JNull ->
  field2 d "main" "humidity" <> JNull ->
  field2 d "wind" "speed" <> JNull ->
  truthy (field1 d "name") = true ->
  dict_get d "weather" = None \/ dict_get d "weather" = Some (JArr []) ->
  exists (r : dict) (k c f v : Q),
    loop_body key acc q p t = (Ok (acc ++ [r]), t') /\
    is_success r = true /\
    dict_get r "weather_desc" = Some (JStr "N/A") /\
    r = [("original_input", JStr (strip q));
         ("city_name", field1 d "name");
         ("country_code", field2 d "sys" "country");
         ("state", field2 d "sys" "state");
         ("weather_desc", JStr "N/A");
         ("temp_kelvin", field2 d "main" "temp");
         ("temp_celsius", JNum c);
         ("temp_fahrenheit", JNum f);
         ("humidity", field2 d "main" "humidity");
         ("wind_speed", field2 d "wind" "speed");
         ("comfort_index", JNum v)] /\
    py_num (field2 d "main" "temp") = Ok k /\
    (c == k - 273.15)%Q /\
    (f == (k - 273.15) * 9 / 5 + 32)%Q /\
    calculate_comfort_index (JNum c) (field2 d "main" "humidity")
      (field2 d "wind" "speed") = Ok (JNum v).
Proof.
  intros Hne Hrun Hws Ht Hh Hw Hn Hweather.
  assert (C : complete d = true) by (apply complete_true_iff; tauto).
  destruct (process_weather_data_success (strip q) d Hws C)
    as [k [c [f [v [Hk [Hc [Hf [Hci Hrec]]]]]]]].
  assert (Hdesc : description_of d = JStr "N/A").
  { unfold description_of. destruct Hweather as [-> | ->]; reflexivity. }
  rewrite Hdesc in Hrec.
  exists (process_weather_data (strip q) (JObj d)), k, c, f, v.
  split; [now apply loop_body_resolved |].
  rewrite Hrec.
  split; [reflexivity | split; [reflexivity | split; [reflexivity |]]].
  split; [exact Hk | split; [exact Hc | split; [exact Hf | exact Hci]]].
Qed.

(** C10: for a query that resolves to a payload the loop can read and whose
    city name is the empty string, the record appended is the
    incomplete-data failure and its city name is "Unknown". *)
Theorem empty_city_name_is_unknown
    (p : provider) (t t' : trace) (key : string) (acc : list dict)
    (q : string) (d : dict) :
  strip q <> "" ->
  get_weather_data_geocoded (strip q) key p t = (Ok (JObj d), t') ->
  extractable d = true ->
  dict_get d "name" = Some (JStr "") ->
  exists r : dict,
    loop_body key acc q p t = (Ok (acc ++ [r]), t') /\
    is_success r = false /\
    is_incomplete_failure r = true /\
    dict_get r "city_name" = Some (JStr "Unknown").
Proof.
  intros Hne Hrun Hex Hname.
  exists (process_weather_data (strip q) (JObj d)).
  split; [now apply loop_body_resolved |].
  assert (C : complete d = false).
  { unfold complete, field1. rewrite Hname. simpl. now rewrite andb_false_r. }
  rewrite (process_weather_data_incomplete (strip q) d Hex C).
  split; [reflexivity | split; [reflexivity |]].
  unfold incomplete_record, field1. rewrite Hname. reflexivity.
Qed.

(** ** The batch *)

Lemma process_batch_run (key : string) (qs : list string) :
  forall (acc : list dict) (p : provider) (t : trace),
  exists rs t1,
    process_batch key qs acc p t = (Ok (acc ++ rs), t ++ t1) /\
    map original_input_of rs
      = map (fun s => Some (JStr s)) (filter nonempty (map strip qs)).
Proof.
  induction qs as [| q qs IH]; intros acc p t.
  - exists [], []. rewrite !app_nil_r. split; reflexivity.
  - simpl process_batch. unfold bind. simpl map. simpl filter. unfold nonempty at 1.
    destruct (String.eqb (strip q) "") eqn:E.
    + apply String.eqb_eq in E.
      rewrite (loop_body_skip key acc q p t E).
      destruct (IH acc p t) as [rs [t1 [Hrun Hmap]]].
      exists rs, t1. split; assumption.
    + apply String.eqb_neq in E.
      rewrite (loop_body_query key acc q p t E).
      destruct (get_weather_data_geocoded_run (strip q) key p t)
        as [w [t1 [Hrun _]]].
      rewrite Hrun.
      set (r := if negb (truthy w) then fetch_error_record (strip q)
                else process_weather_data (strip q) w).
      destruct (IH (acc ++ [r]) p (t ++ Geocode (strip q) key :: t1))
        as [rs [t2 [Hrun2 Hmap]]].
      exists (r :: rs), (Geocode (strip q) key :: t1 ++ t2).
      rewrite Hrun2, <- !app_assoc. simpl. split; [reflexivity |].
      f_equal; [| exact Hmap].
      unfold r, original_input_of. destruct (negb (truthy w)).
      * reflexivity.
      * apply process_weather_data_original_input.
Qed.

(** C4: the loop never raises and returns one record per query that is not
    empty once stripped, each naming its stripped query, in the order of the
    queries; queries that strip to the empty string leave no record.  The
    route answers with that list when the batch is not empty and the API key
    is set. *)
Theorem process_batch_one_result_per_query :
  (forall (p : provider) (t : trace) (key : string) (qs : list string),
      exists rs t',
        process_batch key qs [] p t = (Ok rs, t') /\
        map original_input_of rs
          = map (fun s => Some (JStr s)) (filter nonempty (map strip qs)) /\
        List.length rs = List.length (filter nonempty (map strip qs))) /\
  (forall (p : provider) (t : trace) (key : string) (qs : list string),
      qs <> [] -> key <> "" ->
      exists rs t',
        get_weather (Some key) qs p t = (Ok (WeatherResponse rs), t') /\
        map original_input_of rs
          = map (fun s => Some (JStr s)) (filter nonempty (map strip qs))).
Proof.
  split.
  - intros p t key qs.
    destruct (process_batch_run key qs [] p t) as [rs [t1 [Hrun Hmap]]].
    exists rs, (t ++ t1). split; [exact Hrun | split; [exact Hmap |]].
    rewrite <- (length_map original_input_of rs), Hmap. apply length_map.
  - intros p t key qs Hqs Hkey.
    destruct (process_batch_run key qs [] p t) as [rs [t1 [Hrun Hmap]]].
    exists rs, (t ++ t1). split; [| exact Hmap].
    unfold get_weather. destruct qs as [| q qs']; [contradiction |].
    unfold truthy. apply String.eqb_neq in Hkey. rewrite Hkey.
    change (negb false) with true. cbv iota.
    unfold bind. rewrite Hrun. reflexivity.
Qed.

(** ** Instances on sample providers *)

Lemma finalize_weather_data_overlay_witness :
  exists d' : dict,
    finalize_weather_data (JArr [JObj [("name", JStr "Boston"); ("lat", JNum 42.36);
                                       ("lon", JNum (-71.06)); ("country", JStr "US");
                                       ("state", JStr "Massachusetts")]])
      "k" bare_provider []
      = (Ok (JObj d'), [] ++ [Weather (JNum 42.36) (JNum (-71.06)) "k"]) /\
    overlaid (JObj d') (JStr "US") (JStr "Massachusetts") (JStr "Boston") /\
    (forall k, k <> "sys" -> k <> "name" -> dict_get d' k = dict_get bare_observation k).
Proof.
  apply (finalize_weather_data_overlay bare_provider []
           [("name", JStr "Boston"); ("lat", JNum 42.36); ("lon", JNum (-71.06));
            ("country", JStr "US"); ("state", JStr "Massachusetts")]
           [] (JNum 42.36) (JNum (-71.06)) "k" bare_observation);
    reflexivity.
Defined.

Lemma success_iff_complete_witness :
  let d := payload_of (get_weather_data_geocoded "Boston" "k" steady_provider []) in
  exists r : dict,
    loop_body "k" [] " Boston " steady_provider []
      = (Ok ([] ++ [r]),
         [Geocode "Boston" "k"; Weather (JNum 42.36) (JNum (-71.06)) "k"]) /\
    (is_success r = true <->
     field2 d "main" "temp" <> JNull /\
     field2 d "main" "humidity" <> JNull /\
     field2 d "wind" "speed" <> JNull /\
     truthy (field1 d "name") = true) /\
    (is_success r = false ->
     r = [("original_input", JStr "Boston");
          ("city_name", py_or (field1 d "name") (JStr "Unknown"));
          ("country_code", field2 d "sys" "country");
          ("state", field2 d "sys" "state");
          ("error", JStr incomplete_data_error)]).
Proof.
  apply (success_iff_complete steady_provider []
           [Geocode "Boston" "k"; Weather (JNum 42.36) (JNum (-71.06)) "k"]
           "k" [] " Boston "
           (payload_of (get_weather_data_geocoded "Boston" "k" steady_provider []))).
  - vm_compute. discriminate.
  - reflexivity.
  - reflexivity.
Defined.

(** C3 as written fails when the city name is present but empty: the four
    values are there after enrichment, the name being the empty string the
    geocoder gave, and the record is a failure. *)
Lemma empty_city_name_present_yet_failure :
  let d := payload_of (get_weather_data_geocoded "Nowhere" "k" nameless_provider []) in
  fst (get_weather_data_geocoded "Nowhere" "k" nameless_provider []) = Ok (JObj d) /\
  well_shaped d = true /\
  field2 d "main" "temp" <> JNull /\
  field2 d "main" "humidity" <> JNull /\
  field2 d "wind" "speed" <> JNull /\
  dict_get d "name" = Some (JStr "") /\
  exists r : dict,
    fst (loop_body "k" [] "Nowhere" nameless_provider []) = Ok [r] /\
    is_success r = false.
Proof.
  repeat split; try reflexivity; try (vm_compute; discriminate).
  eexists. split; vm_compute; reflexivity.
Qed.

Lemma missing_description_is_na_witness :
  let d := payload_of (get_weather_data_geocoded "Boston" "k" bare_provider []) in
  exists (r : dict) (k c f v : Q),
    loop_body "k" [] "Boston" bare_provider []
      = (Ok ([] ++ [r]),
         [Geocode "Boston" "k"; Weather (JNum 42.36) (JNum (-71.06)) "k"]) /\
    is_success r = true /\
    dict_get r "weather_desc" = Some (JStr "N/A") /\
    r = [("original_input", JStr "Boston");
         ("city_name", field1 d "name");
         ("country_code", field2 d "sys" "country");
         ("state", field2 d "sys" "state");
         ("weather_desc", JStr "N/A");
         ("temp_kelvin", field2 d "main" "temp");
         ("temp_celsius", JNum c);
         ("temp_fahrenheit", JNum f);
         ("humidity", field2 d "main" "humidity");
         ("wind_speed", field2 d "wind" "speed");
         ("comfort_index", JNum v)] /\
    py_num (field2 d "main" "temp") = Ok k /\
    (c == k - 273.15)%Q /\
    (f == (k - 273.15) * 9 / 5 + 32)%Q /\
    calculate_comfort_index (JNum c) (field2 d "main" "humidity")
      (field2 d "wind" "speed") = Ok (JNum v).
Proof.
  apply (missing_description_is_na bare_provider []
           [Geocode "Boston" "k"; Weather (JNum 42.36) (JNum (-71.06)) "k"]
           "k" [] "Boston"
           (payload_of (get_weather_data_geocoded "Boston" "k" bare_provider []))).
  - vm_compute. discriminate.
  - reflexivity.
  - reflexivity.
  - vm_compute. discriminate.
  - vm_compute. discriminate.
  - vm_compute. discriminate.
  - reflexivity.
  - left. reflexivity.
Defined.

Lemma empty_city_name_is_unknown_witness :
  exists r : dict,
    loop_body "k" [] "Nowhere" nameless_provider []
      = (Ok ([] ++ [r]), [Geocode "Nowhere" "k"; Weather (JNum 1) (JNum 2) "k"]) /\
    is_success r = false /\
    is_incomplete_failure r = true /\
    dict_get r "city_name" = Some (JStr "Unknown").
Proof.
  apply (empty_city_name_is_unknown nameless_provider []
           [Geocode "Nowhere" "k"; Weather (JNum 1) (JNum 2) "k"]
           "k" [] "Nowhere"
           (payload_of (get_weather_data_geocoded "Nowhere" "k" nameless_provider []))).
  - vm_compute. discriminate.
  - reflexivity.
  - reflexivity.
  - reflexivity.
Defined.

Lemma process_batch_one_result_per_query_witness :
  exists rs t',
    get_weather (Some "k") ["Boston, MA"; "   "; " Nowhere123 "] flaky_provider []
      = (Ok (WeatherResponse rs), t') /\
    map original_input_of rs
      = map (fun s => Some (JStr s))
          (filter nonempty (map strip ["Boston, MA"; "   "; " Nowhere123 "])).
Proof.
  apply (proj2 process_batch_one_result_per_query flaky_provider [] "k"
           ["Boston, MA"; "   "; " Nowhere123 "]); discriminate.
Defined.

(** The batch of the witness, run: a failure for the query whose direct
    geocode raised, nothing for the blank query, a failure for the unknown
    place, in that order. *)
Example process_batch_flaky :
  fst (process_batch "k" ["Boston, MA"; "   "; " Nowhere123 "] [] flaky_provider [])
    = Ok [fetch_error_record "Boston, MA"; fetch_error_record "Nowhere123"].
Proof. reflexivity. Qed.

(** * Further properties of the code *)

(** ** Requests sent during resolution *)

Lemma finalize_weather_data_requests (geo : json) (key : string)
    (p : provider) (t : trace) :
  exists r t1,
    finalize_weather_data geo key p t = (r, t ++ t1) /\
    (t1 = [] \/ exists lat lon, t1 = [Weather lat lon key]) /\
    (forall w, r = Ok w -> exists cc st cn, overlaid w cc st cn).
Proof.
  unfold finalize_weather_data. unfold_m.
  destruct (py_index0 geo) as [g0 | e]; simpl;
    [| exists (Raise e), []; rewrite app_nil_r;
       split; [reflexivity | split; [now left | discriminate]]].
  destruct (py_getitem g0 "lat") as [lat | e]; simpl;
    [| exists (Raise e), []; rewrite app_nil_r;
       split; [reflexivity | split; [now left | discriminate]]].
  destruct (py_getitem g0 "lon") as [lon | e]; simpl;
    [| exists (Raise e), []; rewrite app_nil_r;
       split; [reflexivity | split; [now left | discriminate]]].
  destruct (py_get g0 "country" JNull) as [cc | e]; simpl;
    [| exists (Raise e), []; rewrite app_nil_r;
       split; [reflexivity | split; [now left | discriminate]]].
  destruct (py_get g0 "state" JNull) as [st | e]; simpl;
    [| exists (Raise e), []; rewrite app_nil_r;
       split; [reflexivity | split; [now left | discriminate]]].
  destruct (py_get g0 "name" JNull) as [cn | e]; simpl;
    [| exists (Raise e), []; rewrite app_nil_r;
       split; [reflexivity | split; [now left | discriminate]]].
  destruct (p t (Weather lat lon key)) as [wd | e]; simpl.
  - exists (overlay_location wd cc st cn), [Weather lat lon key].
    split; [reflexivity | split; [right; now exists lat, lon |]].
    intros w Hw. exists cc, st, cn. now apply (overlay_location_inv _ _ _ _ _ Hw).
  - exists (Raise e), [Weather lat lon key].
    split; [reflexivity | split; [right; now exists lat, lon | discriminate]].
Qed.

Lemma fallback_attempt_requests (fq key : string) (p : provider) (t : trace) :
  exists o t1,
    fallback_attempt fq key p t = (Ok o, t ++ Geocode fq key :: t1) /\
    (t1 = [] \/ exists lat lon, t1 = [Weather lat lon key]).
Proof.
  unfold fallback_attempt. unfold_m.
  destruct (p t (Geocode fq key)) as [geo | e]; simpl;
    [| exists None, []; split; [reflexivity | now left]].
  destruct (truthy geo); [| exists None, []; split; [reflexivity | now left]].
  destruct (finalize_weather_data_requests geo key p (t ++ [Geocode fq key]))
    as [r [t1 [Hrun [Ht1 _]]]].
  rewrite Hrun, <- app_assoc. simpl.
  destruct r as [w | e]; [exists (Some w), t1 | exists None, t1];
    (split; [reflexivity | exact Ht1]).
Qed.

(** The one synonym is not a state code: a query never qualifies for both
    fallbacks. *)
Lemma synonym_is_not_a_state (s canonical : string) :
  table_get COUNTRY_SYNONYMS s = Some canonical ->
  set_mem s US_STATE_ABBREVS = false.
Proof.
  unfold COUNTRY_SYNONYMS, table_get.
  destruct (String.eqb "UK" s) eqn:E; [| discriminate].
  apply String.eqb_eq in E. subst s. reflexivity.
Qed.

Lemma try_geocode_fallbacks_requests (q key : string) (p : provider) (t : trace) :
  exists w t1,
    try_geocode_fallbacks q key p t = (Ok w, t ++ t1) /\
    (t1 = [] \/
     exists fq, t1 = [Geocode fq key] \/
                exists lat lon, t1 = [Geocode fq key; Weather lat lon key]).
Proof.
  unfold try_geocode_fallbacks, bind, fallback_A, fallback_B.
  set (parts := map strip (split_commas q)).
  destruct (Nat.leb 2 (List.length parts));
    [| exists JNull, []; rewrite app_nil_r; split; [reflexivity | now left]].
  destruct (table_get COUNTRY_SYNONYMS (normalized_last parts)) as [canonical |] eqn:Hsyn.
  - rewrite (synonym_is_not_a_state _ _ Hsyn).
    destruct (fallback_attempt_requests
                (join_commas (removelast parts) ++ "," ++ canonical) key p t)
      as [o [t1 [Hrun Ht1]]].
    rewrite Hrun.
    exists (match o with Some w => w | None => JNull end),
      (Geocode (join_commas (removelast parts) ++ "," ++ canonical) key :: t1).
    split; [destruct o; reflexivity |].
    right. exists (join_commas (removelast parts) ++ "," ++ canonical)%string.
    destruct Ht1 as [-> | [lat [lon ->]]]; [now left | right; now exists lat, lon].
  - unfold ret at 1.
    destruct (set_mem (normalized_last parts) US_STATE_ABBREVS);
      [| exists JNull, []; rewrite app_nil_r; split; [reflexivity | now left]].
    destruct (fallback_attempt_requests (q ++ ", US") key p t) as [o [t1 [Hrun Ht1]]].
    rewrite Hrun.
    exists (match o with Some w => w | None => JNull end),
      (Geocode (q ++ ", US") key :: t1).
    split; [destruct o; reflexivity |].
    right. exists (q ++ ", US")%string.
    destruct Ht1 as [-> | [lat [lon ->]]]; [now left | right; now exists lat, lon].
Qed.

Lemma after_direct_length (key : string) (t1 : trace) :
  after_direct key t1 -> List.length t1 <= 2.
Proof.
  intros [-> | [[lat [lon ->]] | [[fq ->] | [fq [lat [lon ->]]]]]]; simpl; lia.
Qed.

Lemma get_weather_data_geocoded_requests
    (q key : string) (p : provider) (t : trace) :
  exists w t1,
    get_weather_data_geocoded q key p t = (Ok w, t ++ Geocode q key :: t1) /\
    after_direct key t1.
Proof.
  destruct (get_weather_data_geocoded_run q key p t) as [w [t1 [Hrun Hres]]].
  exists w, t1. split; [exact Hrun |].
  { revert Hrun. unfold get_weather_data_geocoded. unfold_m.
    destruct (p t (Geocode q key)) as [geo | e]; simpl.
    - destruct (truthy geo).
      + destruct (finalize_weather_data_requests geo key p (t ++ [Geocode q key]))
          as [r [t2 [Hfin [Ht2 _]]]].
        rewrite Hfin, <- app_assoc. simpl.
        destruct r; intros H; injection H as _ H;
          apply app_inv_head in H; injection H as <-;
          (destruct Ht2 as [-> | Hw]; [now left | right; now left]).
      + destruct (try_geocode_fallbacks_requests q key p (t ++ [Geocode q key]))
          as [w' [t2 [Hfb Ht2]]].
        rewrite Hfb, <- app_assoc. simpl.
        destruct (truthy w'); intros H; injection H as _ H;
          apply app_inv_head in H; injection H as <-;
          (destruct Ht2 as [-> | [fq [-> | [lat [lon ->]]]]];
           [now left
           | right; right; left; now exists fq
           | right; right; right; now exists fq, lat, lon]).
    - intros H. injection H as _ H. apply app_inv_head in H.
      injection H as <-. now left. }
Qed.

(** A payload that enrichment returned is the provider's weather for the
    match's coordinates, with the match's fields laid over it. *)
Lemma finalize_weather_data_inv (geo : json) (key : string) (p : provider)
    (t t' : trace) (w : json) :
  finalize_weather_data geo key p t = (Ok w, t') ->
  exists (g : dict) (rest : list json) (lat lon : json) (d d' : dict),
    geo = JArr (JObj g :: rest) /\
    dict_get g "lat" = Some lat /\
    dict_get g "lon" = Some lon /\
    p t (Weather lat lon key) = Ok (JObj d) /\
    t' = t ++ [Weather lat lon key] /\
    w = JObj d' /\
    overlaid (JObj d') (field1 g "country") (field1 g "state") (field1 g "name") /\
    (forall k, k <> "sys" -> k <> "name" -> dict_get d' k = dict_get d k).
Proof.
  unfold finalize_weather_data. unfold_m.
  destruct geo as [| | | s | l | o]; try (destruct s); simpl; try discriminate.
  destruct l as [| g0 rest]; simpl; [discriminate |].
  destruct g0 as [| | | | | g]; simpl; try discriminate.
  destruct (dict_get g "lat") as [lat |] eqn:Hlat; simpl; [| discriminate].
  destruct (dict_get g "lon") as [lon |] eqn:Hlon; simpl; [| discriminate].
  destruct (p t (Weather lat lon key)) as [wd |] eqn:Hp; simpl; [| discriminate].
  intros H. injection H as Hov <-.
  destruct (overlay_location_inv _ _ _ _ _ Hov) as [Hover [d [d' [-> [-> Hframe]]]]].
  exists g, rest, lat, lon, d, d'.
  repeat split; try reflexivity; assumption.
Qed.

Lemma fallback_attempt_enriched (fq key : string) (p : provider) (t : trace) :
  exists o t1,
    fallback_attempt fq key p t = (Ok o, t ++ Geocode fq key :: t1) /\
    ((o = None /\ (t1 = [] \/ exists lat lon, t1 = [Weather lat lon key])) \/
     (exists w lat lon,
         o = Some w /\ t1 = [Weather lat lon key] /\ enriched_from p key t fq lat lon w)).
Proof.
  unfold fallback_attempt. unfold_m.
  destruct (p t (Geocode fq key)) as [geo | e] eqn:Hp; simpl;
    [| exists None, []; split; [reflexivity | left; split; [reflexivity | now left]]].
  destruct (truthy geo);
    [| exists None, []; split; [reflexivity | left; split; [reflexivity | now left]]].
  destruct (finalize_weather_data_requests geo key p (t ++ [Geocode fq key]))
    as [r [t1 [Hrun [Ht1 _]]]].
  rewrite Hrun, <- app_assoc. simpl.
  destruct r as [w | e].
  - destruct (finalize_weather_data_inv _ _ _ _ _ _ Hrun)
      as [g [rest [lat [lon [d [d' [-> [Hlat [Hlon [Hw [Ht' [-> [Hov Hframe]]]]]]]]]]]]].
    apply app_inv_head in Ht'. subst t1.
    exists (Some (JObj d')), [Weather lat lon key]. split; [reflexivity |].
    right. exists (JObj d'), lat, lon.
    split; [reflexivity | split; [reflexivity |]].
    exists g, rest, d, d'. repeat split; try assumption; reflexivity.
  - exists None, t1. split; [reflexivity | left; split; [reflexivity | exact Ht1]].
Qed.

Lemma try_geocode_fallbacks_enriched (q key : string) (p : provider) (t : trace) :
  let parts := map strip (split_commas q) in
  exists w t1,
    try_geocode_fallbacks q key p t = (Ok w, t ++ t1) /\
    ((w = JNull /\
      (t1 = [] \/
       exists fq, t1 = [Geocode fq key] \/
                  exists lat lon, t1 = [Geocode fq key; Weather lat lon key])) \/
     (exists fq lat lon,
         t1 = [Geocode fq key; Weather lat lon key] /\
         enriched_from p key t fq lat lon w /\
         (fq = (q ++ ", US")%string \/
          exists canonical,
            table_get COUNTRY_SYNONYMS (normalized_last parts) = Some canonical /\
            fq = (join_commas (removelast parts) ++ "," ++ canonical)%string))).
Proof.
  intros parts.
  unfold try_geocode_fallbacks, bind, fallback_A, fallback_B. fold parts.
  destruct (Nat.leb 2 (List.length parts));
    [| exists JNull, []; rewrite app_nil_r;
       split; [reflexivity | left; split; [reflexivity | now left]]].
  destruct (table_get COUNTRY_SYNONYMS (normalized_last parts)) as [canonical |] eqn:Hsyn.
  - rewrite (synonym_is_not_a_state _ _ Hsyn).
    set (fq := (join_commas (removelast parts) ++ "," ++ canonical)%string).
    destruct (fallback_attempt_enriched fq key p t)
      as [o [t1 [Hrun Hcase]]]; rewrite Hrun;
      destruct Hcase as [[-> Ht1] | [w [lat [lon [-> [-> Henr]]]]]].
    + exists JNull, (Geocode fq key :: t1). split; [reflexivity |].
      left. split; [reflexivity |]. right. exists fq.
      destruct Ht1 as [-> | [lat [lon ->]]]; [now left | right; now exists lat, lon].
    + exists w, [Geocode fq key; Weather lat lon key]. split; [reflexivity |].
      right. exists fq, lat, lon.
      split; [reflexivity | split; [exact Henr |]].
      right. now exists canonical.
  - unfold ret at 1.
    destruct (set_mem (normalized_last parts) US_STATE_ABBREVS);
      [| exists JNull, []; rewrite app_nil_r;
         split; [reflexivity | left; split; [reflexivity | now left]]].
    destruct (fallback_attempt_enriched (q ++ ", US") key p t)
      as [o [t1 [Hrun Hcase]]]; rewrite Hrun;
      destruct Hcase as [[-> Ht1] | [w [lat [lon [-> [-> Henr]]]]]].
    + exists JNull, (Geocode (q ++ ", US") key :: t1). split; [reflexivity |].
      left. split; [reflexivity |]. right. exists (q ++ ", US")%string.
      destruct Ht1 as [-> | [lat [lon ->]]]; [now left | right; now exists lat, lon].
    + exists w, [Geocode (q ++ ", US") key; Weather lat lon key].
      split; [reflexivity |].
      right. exists (q ++ ", US")%string, lat, lon.
      split; [reflexivity | split; [exact Henr | now left]].
Qed.

Lemma enriched_from_truthy (p : provider) (key : string) (t0 : trace) (fq : string)
    (lat lon w : json) :
  enriched_from p key t0 fq lat lon w -> truthy w = true /\ resolved w.
Proof.
  intros [g [rest [d [d' [_ [_ [_ [_ [-> [Hov _]]]]]]]]]].
  split; [now apply (overlaid_truthy _ _ _ _ Hov) |].
  right. eexists; eexists; eexists. exact Hov.
Qed.

(** X1: resolution never raises and sends at most three requests: the
    direct geocode, then nothing, or the weather request, or one fallback
    geocode with or without its weather request; the two fallbacks are never
    both attempted.  What it returns is [None], or the weather the provider
    gave for the coordinates of the first match of the direct query, or of
    the one fallback query, asked in the weather request that was sent, with
    that match's name, country and state laid over it and every other entry
    as the provider gave it. *)
Theorem resolution_sends_at_most_three_requests
    (q key : string) (p : provider) (t : trace) :
  let parts := map strip (split_commas q) in
  exists w t1,
    get_weather_data_geocoded q key p t = (Ok w, t ++ Geocode q key :: t1) /\
    after_direct key t1 /\
    List.length (Geocode q key :: t1) <= 3 /\
    (w = JNull \/
     (exists lat lon,
         t1 = [Weather lat lon key] /\ enriched_from p key t q lat lon w) \/
     (exists fq lat lon,
         t1 = [Geocode fq key; Weather lat lon key] /\
         enriched_from p key (t ++ [Geocode q key]) fq lat lon w /\
         (fq = (q ++ ", US")%string \/
          exists canonical,
            table_get COUNTRY_SYNONYMS (normalized_last parts) = Some canonical /\
            fq = (join_commas (removelast parts) ++ "," ++ canonical)%string))).
Proof.
  intros parts.
  destruct (get_weather_data_geocoded_requests q key p t) as [w [t1 [Hrun Hshape]]].
  exists w, t1. split; [exact Hrun | split; [exact Hshape |]].
  split; [pose proof (after_direct_length key t1 Hshape); simpl; lia |].
  revert Hrun. unfold get_weather_data_geocoded. unfold_m.
  destruct (p t (Geocode q key)) as [geo | e] eqn:Hp; simpl;
    [| intros H; injection H as <- _; now left].
  destruct (truthy geo).
  - destruct (finalize_weather_data geo key p (t ++ [Geocode q key]))
      as [[w0 | e] t'] eqn:Hfin; intros H; injection H as <- Ht'; [| now left].
    destruct (finalize_weather_data_inv _ _ _ _ _ _ Hfin)
      as [g [rest [lat [lon [d [d' [-> [Hlat [Hlon [Hw [-> [-> [Hov Hframe]]]]]]]]]]]]].
    rewrite <- app_assoc in Ht'. apply app_inv_head in Ht'.
    injection Ht' as <-.
    right. left. exists lat, lon. split; [reflexivity |].
    exists g, rest, d, d'. repeat split; try assumption; reflexivity.
  - destruct (try_geocode_fallbacks_enriched q key p (t ++ [Geocode q key]))
      as [w0 [t2 [Hfb Hcase]]].
    fold parts in Hcase. rewrite Hfb.
    destruct Hcase as [[-> _] | [fq [lat [lon [-> [Henr Hfq]]]]]].
    + simpl. intros H. injection H as <- _. now left.
    + rewrite (proj1 (enriched_from_truthy _ _ _ _ _ _ _ Henr)).
      rewrite <- app_assoc. simpl. intros H. injection H as <- Ht'.
      apply app_inv_head in Ht'. injection Ht' as <-.
      right. right. exists fq, lat, lon.
      split; [reflexivity | split; [exact Henr | exact Hfq]].
Qed.

(** ** The US-state fallback and the queries without a comma *)

(** X2: when the direct geocode of a query returns nothing, the query has at
    least two comma-separated parts and the last one, stripped, uppercased
    and without periods, is a state code of the table, the next request
    geocodes the query as it was given with ", US" appended, and no
    synonym request is sent. *)
Theorem us_state_retry
    (p : provider) (t : trace) (key q : string) (geo : json) :
  let parts := map strip (split_commas q) in
  p t (Geocode q key) = Ok geo ->
  truthy geo = false ->
  2 <= List.length parts ->
  set_mem (normalized_last parts) US_STATE_ABBREVS = true ->
  exists w t1,
    get_weather_data_geocoded q key p t
      = (Ok w, t ++ Geocode q key :: Geocode (q ++ ", US") key :: t1) /\
    (t1 = [] \/ exists lat lon, t1 = [Weather lat lon key]).
Proof.
  intros parts Hp Hempty Hlen Hstate.
  assert (Hsyn : table_get COUNTRY_SYNONYMS (normalized_last parts) = None).
  { destruct (table_get COUNTRY_SYNONYMS (normalized_last parts)) eqn:E; [| reflexivity].
    rewrite (synonym_is_not_a_state _ _ E) in Hstate. discriminate. }
  destruct (fallback_attempt_requests (q ++ ", US") key p (t ++ [Geocode q key]))
    as [o [t1 [Hrun Ht1]]].
  exists (match o with Some w => if truthy w then w else JNull | None => JNull end), t1.
  split; [| exact Ht1].
  unfold get_weather_data_geocoded. unfold_m. rewrite Hp, Hempty.
  unfold try_geocode_fallbacks, bind, fallback_A, fallback_B. fold parts.
  apply Nat.leb_le in Hlen. rewrite Hlen, Hsyn, Hstate. unfold ret at 1.
  rewrite Hrun, <- app_assoc. simpl.
  destruct o as [w |]; unfold ret; cbv beta iota;
    [destruct (truthy w) |]; reflexivity.
Qed.

Lemma us_state_retry_witness :
  exists w t1,
    get_weather_data_geocoded "Boston , m.a." "k" empty_provider []
      = (Ok w, [] ++ Geocode "Boston , m.a." "k"
                 :: Geocode "Boston , m.a., US" "k" :: t1) /\
    (t1 = [] \/ exists lat lon, t1 = [Weather lat lon "k"]).
Proof.
  apply (us_state_retry empty_provider [] "k" "Boston , m.a." (JArr []));
    [reflexivity | reflexivity | vm_compute; lia | reflexivity].
Defined.

Lemma split_commas_no_comma (s : string) :
  has_comma s = false -> split_commas s = [s].
Proof.
  induction s as [| c s IH]; simpl; [reflexivity |].
  destruct (Ascii.eqb c ","%char); simpl; [discriminate |].
  intros H. now rewrite (IH H).
Qed.

(** X3: a query without a comma triggers no fallback: when its direct
    geocode returns nothing, resolution returns [None] after that single
    request, and the loop records the could-not-fetch failure. *)
Theorem no_comma_no_fallback
    (p : provider) (t : trace) (key location_query : string) (geo : json)
    (acc : list dict) :
  let q := strip location_query in
  q <> "" ->
  has_comma q = false ->
  p t (Geocode q key) = Ok geo ->
  truthy geo = false ->
  get_weather_data_geocoded q key p t = (Ok JNull, t ++ [Geocode q key]) /\
  loop_body key acc location_query p t
    = (Ok (acc ++ [fetch_error_record q]), t ++ [Geocode q key]).
Proof.
  intros q Hne Hcomma Hp Hempty.
  assert (Hrun : get_weather_data_geocoded q key p t = (Ok JNull, t ++ [Geocode q key])).
  { unfold get_weather_data_geocoded. unfold_m. rewrite Hp, Hempty.
    unfold try_geocode_fallbacks, bind, fallback_A, fallback_B.
    rewrite (split_commas_no_comma q Hcomma). reflexivity. }
  split; [exact Hrun |].
  rewrite (loop_body_query key acc location_query p t Hne). fold q.
  rewrite Hrun. reflexivity.
Qed.

Lemma no_comma_no_fallback_witness :
  get_weather_data_geocoded "Nowhere123" "k" empty_provider []
    = (Ok JNull, [] ++ [Geocode "Nowhere123" "k"]) /\
  loop_body "k" [] " Nowhere123 " empty_provider []
    = (Ok ([] ++ [fetch_error_record "Nowhere123"]), [] ++ [Geocode "Nowhere123" "k"]).
Proof.
  apply (no_comma_no_fallback empty_provider [] "k" " Nowhere123 " (JArr []) []).
  - vm_compute. discriminate.
  - reflexivity.
  - reflexivity.
  - reflexivity.
Defined.

(** X4: a non-empty direct geocode ends the search: the only further request
    is the weather request for that match, and when enrichment raises (the
    weather request fails, the match has no coordinates) the query resolves
    to [None] without any fallback being tried. *)
Theorem direct_match_wins
    (p : provider) (t : trace) (key q : string) (geo : json) :
  p t (Geocode q key) = Ok geo ->
  truthy geo = true ->
  exists w t1,
    get_weather_data_geocoded q key p t = (Ok w, t ++ Geocode q key :: t1) /\
    (t1 = [] \/ exists lat lon, t1 = [Weather lat lon key]) /\
    (w = JNull <->
     exists e t', finalize_weather_data geo key p (t ++ [Geocode q key]) = (Raise e, t')).
Proof.
  intros Hp Hgeo.
  destruct (finalize_weather_data_requests geo key p (t ++ [Geocode q key]))
    as [r [t1 [Hfin [Ht1 Hov]]]].
  exists (match r with Ok w => w | Raise _ => JNull end), t1.
  split; [| split; [exact Ht1 |]].
  - unfold get_weather_data_geocoded. unfold_m. rewrite Hp, Hgeo, Hfin.
    rewrite <- app_assoc. simpl. destruct r; reflexivity.
  - rewrite Hfin. destruct r as [w | e].
    + split.
      * intros ->. destruct (Hov JNull eq_refl) as [cc [st [cn [d [sys [H _]]]]]].
        discriminate.
      * intros [e [t' H]]. discriminate.
    + split; [intros _; eexists; eexists; reflexivity | reflexivity].
Qed.

Lemma direct_match_wins_witness :
  exists w t1,
    get_weather_data_geocoded "Boston" "k" steady_provider []
      = (Ok w, [] ++ Geocode "Boston" "k" :: t1) /\
    (t1 = [] \/ exists lat lon, t1 = [Weather lat lon "k"]) /\
    (w = JNull <->
     exists e t',
       finalize_weather_data boston_match "k" steady_provider ([] ++ [Geocode "Boston" "k"])
         = (Raise e, t')).
Proof.
  apply (direct_match_wins steady_provider [] "k" "Boston" boston_match); reflexivity.
Defined.

(** ** The records of a batch *)

Lemma convert_temperatures_inv (k : json) (temps : json * json) :
  is_none k = false ->
  convert_temperatures k = Ok temps ->
  exists kq : Q,
    py_num k = Ok kq /\
    temps = (JNum (kq - 273.15)%Q, JNum ((kq - 273.15) * 9 / 5 + 32)%Q).
Proof.
  unfold convert_temperatures. intros ->.
  destruct (py_num k) as [kq |]; simpl; intros H; [| discriminate].
  injection H as <-. now exists kq.
Qed.

Lemma calculate_comfort_index_inv (t h w c : json) :
  is_none t = false -> is_none h = false -> is_none w = false ->
  calculate_comfort_index t h w = Ok c ->
  exists v : Q, c = JNum v.
Proof.
  unfold calculate_comfort_index. intros -> -> ->. simpl.
  destruct (py_num t); simpl; [| discriminate].
  destruct (py_num h); simpl; [| discriminate].
  destruct (py_num w); simpl; [| discriminate].
  intros H. injection H as <-. eexists. reflexivity.
Qed.

Lemma is_none_false (x : json) : is_none x = false -> x <> JNull.
Proof. destruct x; simpl; congruence. Qed.

(** Whatever the payload, the [try] of the loop yields a success record or
    one of the failure records. *)
Lemma process_weather_data_cases (oi : string) (wd : json) :
  success_record (process_weather_data oi wd) \/
  failure_record (process_weather_data oi wd).
Proof.
  unfold process_weather_data.
  destruct (shape_weather_data oi wd) as [r |] eqn:E;
    [| right; exists oi; right; left; reflexivity].
  unfold shape_weather_data, rbind in E.
  repeat match type of E with
         | context [match ?x with Ok _ => _ | Raise _ => _ end] =>
             destruct x eqn:?; try discriminate E
         | context [if ?b then _ else _] => destruct b eqn:?; try discriminate E
         end;
  injection E as <-;
  try (right; exists oi; right; right; eexists; eexists; eexists; reflexivity).
  all: left.
  all: repeat match goal with
         | H : (_ || _)%bool = false |- _ => apply orb_false_iff in H; destruct H
         | H : negb _ = false |- _ => apply negb_false_iff in H
         end.
  all: match goal with
       | Hn : is_none ?k = false, Hconv : convert_temperatures ?k = Ok ?temps |- _ =>
           destruct (convert_temperatures_inv k temps Hn Hconv) as [kq [Hk ->]]
       end.
  all: cbn [fst snd] in *.
  all: match goal with
       | Hci : calculate_comfort_index ?tc ?h ?w = Ok ?c,
         Hh : is_none ?h = false, Hw : is_none ?w = false |- _ =>
           destruct (calculate_comfort_index_inv tc h w c eq_refl Hh Hw Hci) as [v ->];
           pose proof (is_none_false h Hh); pose proof (is_none_false w Hw)
       end.
  all: do 8 eexists; exists kq; do 3 eexists;
       split; [reflexivity | repeat split; try eassumption; reflexivity].
Qed.

(** The records of a batch are those of its queries. *)
Lemma process_batch_records (key : string) (qs : list string) :
  forall (acc : list dict) (p : provider) (t : trace),
  exists rs t',
    process_batch key qs acc p t = (Ok (acc ++ rs), t') /\
    Forall (fun r => success_record r \/ failure_record r) rs.
Proof.
  induction qs as [| q qs IH]; intros acc p t.
  - exists [], t. rewrite app_nil_r. split; [reflexivity | constructor].
  - simpl process_batch. unfold bind.
    destruct (String.eqb (strip q) "") eqn:E.
    + apply String.eqb_eq in E. rewrite (loop_body_skip key acc q p t E).
      apply IH.
    + apply String.eqb_neq in E. rewrite (loop_body_query key acc q p t E).
      destruct (get_weather_data_geocoded_run (strip q) key p t) as [w [t1 [Hrun _]]].
      rewrite Hrun.
      set (r := if negb (truthy w) then fetch_error_record (strip q)
                else process_weather_data (strip q) w).
      destruct (IH (acc ++ [r]) p (t ++ Geocode (strip q) key :: t1))
        as [rs [t' [Hrun' Hall]]].
      exists (r :: rs), t'. rewrite Hrun', <- app_assoc. split; [reflexivity |].
      constructor; [| exact Hall].
      unfold r. destruct (negb (truthy w)).
      * right. exists (strip q). now left.
      * apply process_weather_data_cases.
Qed.

Lemma success_record_is_success (r : dict) : success_record r -> is_success r = true.
Proof.
  intros [oi [city [cc [st [desc [temp [hum [wind [k [c [f [v [-> _]]]]]]]]]]]]].
  reflexivity.
Qed.

Lemma failure_record_is_failure (r : dict) : failure_record r -> is_success r = false.
Proof.
  intros [oi [-> | [-> | [city [cc [st ->]]]]]]; reflexivity.
Qed.

(** X5: whatever the provider answers, every record of a batch is either a
    failure record (could not fetch, incomplete data, internal error) or a
    success record: eleven entries, a non-empty city name, a numeric
    temperature, and Celsius, Fahrenheit and comfort index that are numbers,
    the first two computed from the Kelvin value.  A record without
    ['error'] is never missing a derived value. *)
Theorem batch_records_are_well_formed
    (p : provider) (t : trace) (key : string) (qs : list string) :
  exists rs t',
    process_batch key qs [] p t = (Ok rs, t') /\
    Forall (fun r => (is_success r = true /\ success_record r) \/
                     (is_success r = false /\ failure_record r)) rs.
Proof.
  destruct (process_batch_records key qs [] p t) as [rs [t' [Hrun Hall]]].
  exists rs, t'. split; [exact Hrun |].
  eapply Forall_impl; [| exact Hall].
  intros r [H | H].
  - left. split; [now apply success_record_is_success | exact H].
  - right. split; [now apply failure_record_is_failure | exact H].
Qed.

(** ** Blank queries, surrounding whitespace, and the requests of a batch *)

(** X8: queries that are empty once stripped cost nothing: the batch without
    them gives the same records and sends the same requests. *)
Theorem blank_queries_are_free
    (key : string) (qs : list string) (acc : list dict) (p : provider) (t : trace) :
  process_batch key qs acc p t
    = process_batch key (filter (fun q => nonempty (strip q)) qs) acc p t.
Proof.
  revert acc t. induction qs as [| q qs IH]; intros acc t; [reflexivity |].
  simpl filter. unfold nonempty at 1.
  destruct (String.eqb (strip q) "") eqn:E; simpl negb; cbv iota.
  - apply String.eqb_eq in E. simpl process_batch. unfold bind.
    rewrite (loop_body_skip key acc q p t E). apply IH.
  - simpl process_batch. unfold bind.
    destruct (loop_body key acc q p t) as [[acc' | e] t']; [apply IH | reflexivity].
Qed.

Lemma rstrip_idempotent (s : string) : rstrip (rstrip s) = rstrip s.
Proof.
  induction s as [| c s IH]; [reflexivity |].
  simpl. destruct (is_space c && String.eqb (rstrip s) "") eqn:E; [reflexivity |].
  simpl. rewrite IH, E. reflexivity.
Qed.

Lemma lstrip_head (s : string) :
  lstrip s = "" \/ exists c s', lstrip s = String c s' /\ is_space c = false.
Proof.
  induction s as [| c s IH]; [now left |].
  simpl. destruct (is_space c) eqn:E; [exact IH | right; now exists c, s].
Qed.

Lemma strip_idempotent (s : string) : strip (strip s) = strip s.
Proof.
  unfold strip. destruct (lstrip_head s) as [-> | [c [s' [-> Hc]]]]; [reflexivity |].
  assert (Hr : rstrip (String c s') = String c (rstrip s')).
  { simpl. now rewrite Hc. }
  rewrite Hr. simpl lstrip. rewrite Hc. rewrite <- Hr.
  apply rstrip_idempotent.
Qed.

(** X9: [strip] is idempotent, so the loop treats a query and its stripped
    form alike: same record, same requests; the [original_input] of a record
    is a string that stripping leaves unchanged. *)
Theorem surrounding_whitespace_is_ignored
    (key : string) (acc : list dict) (q : string) (p : provider) (t : trace) :
  strip (strip q) = strip q /\
  loop_body key acc q p t = loop_body key acc (strip q) p t.
Proof.
  split; [apply strip_idempotent |].
  unfold loop_body. cbv zeta. rewrite strip_idempotent. reflexivity.
Qed.

Lemma process_batch_requests (key : string) (qs : list string) :
  forall (acc : list dict) (p : provider) (t : trace),
  exists rs t1,
    process_batch key qs acc p t = (Ok (acc ++ rs), t ++ t1) /\
    List.length rs = List.length (filter nonempty (map strip qs)) /\
    List.length rs <= List.length t1 <= 3 * List.length rs.
Proof.
  induction qs as [| q qs IH]; intros acc p t.
  - exists [], []. rewrite !app_nil_r. simpl. repeat split; lia.
  - simpl process_batch. unfold bind. simpl map. simpl filter. unfold nonempty at 1.
    destruct (String.eqb (strip q) "") eqn:E.
    + apply String.eqb_eq in E. rewrite (loop_body_skip key acc q p t E). apply IH.
    + apply String.eqb_neq in E. rewrite (loop_body_query key acc q p t E).
      destruct (get_weather_data_geocoded_requests (strip q) key p t)
        as [w [t1 [Hrun Hshape]]].
      pose proof (after_direct_length key t1 Hshape) as Hlen.
      rewrite Hrun.
      set (r := if negb (truthy w) then fetch_error_record (strip q)
                else process_weather_data (strip q) w).
      destruct (IH (acc ++ [r]) p (t ++ Geocode (strip q) key :: t1))
        as [rs [t2 [Hrun2 [Hcount Hbound]]]].
      exists (r :: rs), ((Geocode (strip q) key :: t1) ++ t2).
      rewrite Hrun2, <- !app_assoc. split; [reflexivity |].
      simpl negb. cbv iota. rewrite length_app. simpl List.length in *.
      split; lia.
Qed.

(** X10: the route never raises; it sends no request when it answers 400
    (empty batch) or 500 (API key unset or empty), the empty batch being
    checked first; otherwise it sends, for a batch that gives [n] records,
    at least [n] and at most [3 n] requests. *)
Theorem route_requests
    (api_key : option string) (qs : list string) (p : provider) (t : trace) :
  exists resp t1,
    get_weather api_key qs p t = (Ok resp, t ++ t1) /\
    match resp with
    | ErrorResponse status =>
        t1 = [] /\
        (status = 400 /\ qs = [] \/
         status = 500 /\ qs <> [] /\ (api_key = None \/ api_key = Some ""))
    | WeatherResponse rs =>
        qs <> [] /\
        List.length rs = List.length (filter nonempty (map strip qs)) /\
        List.length rs <= List.length t1 <= 3 * List.length rs
    end.
Proof.
  unfold get_weather. destruct qs as [| q qs'].
  - exists (ErrorResponse 400), []. rewrite app_nil_r.
    split; [reflexivity | split; [reflexivity | left; now split]].
  - destruct api_key as [key |].
    + unfold truthy. destruct (String.eqb key "") eqn:E;
        [change (negb true) with false | change (negb false) with true]; cbv iota.
      * apply String.eqb_eq in E. subst key.
        exists (ErrorResponse 500), []. rewrite app_nil_r.
        split; [reflexivity | split; [reflexivity |]].
        right. split; [reflexivity | split; [discriminate | now right]].
      * destruct (process_batch_requests key (q :: qs') [] p t)
          as [rs [t1 [Hrun [Hcount Hbound]]]].
        exists (WeatherResponse rs), t1. unfold bind. rewrite Hrun.
        split; [reflexivity | split; [discriminate | split; assumption]].
    + exists (ErrorResponse 500), []. rewrite app_nil_r.
      split; [reflexivity | split; [reflexivity |]].
      right. split; [reflexivity | split; [discriminate | now left]].
Qed.

(** ** Edges of the comfort index and of the converter *)

Local Open Scope Q_scope.

(** X11: the comfort index saturates in temperature below 0 and above 40
    and in wind speed above 10, but the wind speed is not clamped below: a
    wind speed of at most 0 never gives less than still air, and for a
    humidity between 0 and 100 a wind speed of at most -1 gives strictly
    more, above 1 at 40 degrees or more and no humidity; with a humidity of
    at most 100 the index is never negative. *)
Theorem comfort_index_saturation :
  (forall t h w : Q,
      calculate_comfort_index (JNum t) (JNum h) (JNum w)
        = Ok (JNum (comfort_value t h w))) /\
  (forall t h w : Q, t <= 0 -> comfort_value t h w == comfort_value 0 h w) /\
  (forall t h w : Q, 40 <= t -> comfort_value t h w == comfort_value 40 h w) /\
  (forall t h w : Q, 10 <= w -> comfort_value t h w == comfort_value t h 10) /\
  (forall t h w : Q, w <= 0 -> comfort_value t h 0 <= comfort_value t h w) /\
  (forall t h w : Q, 0 <= h <= 100 -> w <= -1 ->
      comfort_value t h 0 < comfort_value t h w) /\
  (forall t w : Q, 40 <= t -> w <= -1 -> 1 < comfort_value t 0 w) /\
  (forall t h w : Q, h <= 100 -> 0 <= comfort_value t h w).
Proof.
  split; [reflexivity |].
  split; [| split; [| split; [| split; [| split; [| split]]]]].
  - intros t h w H. unfold comfort_value.
    assert (E : Qmax 0 (Qmin t 40) == Qmax 0 (Qmin 0 40)).
    { rewrite (Q.min_l t 40) by lra. rewrite (Q.max_l 0 t) by lra. reflexivity. }
    rewrite E. reflexivity.
  - intros t h w H. unfold comfort_value.
    assert (E : Qmax 0 (Qmin t 40) == Qmax 0 (Qmin 40 40)).
    { rewrite (Q.min_r t 40) by lra. reflexivity. }
    rewrite E. reflexivity.
  - intros t h w H. unfold comfort_value.
    assert (E : Qmin w 10 == Qmin 10 10).
    { rewrite (Q.min_r w 10) by lra. reflexivity. }
    rewrite E. reflexivity.
  - intros t h w H. unfold comfort_value.
    assert (E : Qmin w 10 == w) by (apply Q.min_l; lra).
    assert (E0 : Qmin 0 10 == 0) by reflexivity.
    rewrite E, E0. set (a := Qmax 0 (Qmin t 40)). constant_divisors. lra.
  - intros t h w _ H. unfold comfort_value.
    assert (E : Qmin w 10 == w) by (apply Q.min_l; lra).
    assert (E0 : Qmin 0 10 == 0) by reflexivity.
    rewrite E, E0. set (a := Qmax 0 (Qmin t 40)). constant_divisors. lra.
  - intros t w Ht H. unfold comfort_value.
    assert (E : Qmin w 10 == w) by (apply Q.min_l; lra).
    assert (Et : Qmax 0 (Qmin t 40) == 40).
    { rewrite (Q.min_r t 40) by lra. reflexivity. }
    rewrite E, Et. constant_divisors. lra.
  - intros t h w H. unfold comfort_value.
    assert (Ha : 0 <= Qmax 0 (Qmin t 40)) by apply Q.le_max_l.
    assert (Hb : Qmin w 10 <= 10) by apply Q.le_min_r.
    set (a := Qmax 0 (Qmin t 40)) in *. set (b := Qmin w 10) in *.
    constant_divisors. lra.
Qed.

Lemma comfort_index_saturation_witness :
  comfort_value (-5) 50 3 == comfort_value 0 50 3 /\
  comfort_value 45 50 3 == comfort_value 40 50 3 /\
  comfort_value 20 50 25 == comfort_value 20 50 10 /\
  comfort_value 20 50 0 <= comfort_value 20 50 (-3) /\
  comfort_value 20 50 0 < comfort_value 20 50 (-3) /\
  1 < comfort_value 40 0 (-10) /\
  0 <= comfort_value (-30) 100 50.
Proof.
  destruct comfort_index_saturation
    as [_ [Hlow [Hhigh [Hwind [Hneg [Hstrict [Hover Hpos]]]]]]].
  split; [| split; [| split; [| split; [| split; [| split]]]]].
  - apply (Hlow (-5) 50 3). vm_compute. discriminate.
  - apply (Hhigh 45 50 3). vm_compute. discriminate.
  - apply (Hwind 20 50 25). vm_compute. discriminate.
  - apply (Hneg 20 50 (-3)). vm_compute. discriminate.
  - apply (Hstrict 20 50 (-3)).
    + split; vm_compute; discriminate.
    + vm_compute. discriminate.
  - apply (Hover 40 (-10)); vm_compute; discriminate.
  - apply (Hpos (-30) 100 50). vm_compute. discriminate.
Defined.

(** X12: [convert_temperatures] returns [(None, None)] for [None] only and
    raises on a value that is neither a number nor [None]; on numbers both
    results never decrease when the Kelvin value grows, and a Kelvin value
    that is not negative gives at least -273.15 degrees Celsius and -459.67
    degrees Fahrenheit. *)
Theorem convert_temperatures_edges :
  (forall k : json, convert_temperatures k = Ok (JNull, JNull) <-> k = JNull) /\
  (forall k : json,
      is_number_or_none k = false -> convert_temperatures k = Raise OtherException) /\
  (forall k1 k2 c1 f1 c2 f2 : Q,
      convert_temperatures (JNum k1) = Ok (JNum c1, JNum f1) ->
      convert_temperatures (JNum k2) = Ok (JNum c2, JNum f2) ->
      k1 <= k2 -> c1 <= c2 /\ f1 <= f2) /\
  (forall k c f : Q,
      convert_temperatures (JNum k) = Ok (JNum c, JNum f) ->
      0 <= k -> -273.15 <= c /\ -459.67 <= f).
Proof.
  split; [| split; [| split]].
  - intros k. split.
    + destruct k; simpl; intros H; try discriminate H; reflexivity.
    + intros ->. reflexivity.
  - intros k H. destruct k; simpl in H; try discriminate H; reflexivity.
  - intros k1 k2 c1 f1 c2 f2 H1 H2 Hle. simpl in H1, H2.
    injection H1 as <- <-. injection H2 as <- <-.
    unfold Qdiv. change (/ 5) with (1 # 5). split; lra.
  - intros k c f H Hk. simpl in H. injection H as <- <-.
    unfold Qdiv. change (/ 5) with (1 # 5). split; lra.
Qed.

Lemma convert_temperatures_edges_witness :
  convert_temperatures (JStr "290") = Raise OtherException /\
  (280 - 273.15 <= 300 - 273.15 /\
   (280 - 273.15) * 9 / 5 + 32 <= (300 - 273.15) * 9 / 5 + 32) /\
  (-273.15 <= 0 - 273.15 /\ -459.67 <= (0 - 273.15) * 9 / 5 + 32).
Proof.
  destruct convert_temperatures_edges as [_ [Hraise [Hmono Hzero]]].
  split; [| split].
  - apply (Hraise (JStr "290")). reflexivity.
  - apply (Hmono 280 300 (280 - 273.15) ((280 - 273.15) * 9 / 5 + 32)
             (300 - 273.15) ((300 - 273.15) * 9 / 5 + 32));
      [reflexivity | reflexivity | vm_compute; discriminate].
  - apply (Hzero 0 (0 - 273.15) ((0 - 273.15) * 9 / 5 + 32));
      [reflexivity | vm_compute; discriminate].
Defined.

Local Close Scope Q_scope.

(** ** Payloads that are not typed as documented *)

Lemma py_num_ill_typed (x : json) :
  is_number_or_none x = false -> py_num x = Raise OtherException /\ is_none x = false.
Proof. destruct x; simpl; intros H; try discriminate H; now split. Qed.

Lemma py_num_number (x : json) :
  is_number_or_none x = true -> is_none x = false -> exists n : Q, py_num x = Ok n.
Proof.
  destruct x; simpl; intros H1 H2; try discriminate; eexists; reflexivity.
Qed.

(** When the [try] body returns a record, [main] and [wind] were objects or
    absent. *)
Lemma shape_weather_data_ok_inv (oi : string) (d r : dict) :
  shape_weather_data oi (JObj d) = Ok r ->
  absent_or is_obj (dict_get d "main") = true /\
  absent_or is_obj (dict_get d "wind") = true.
Proof.
  intros E. unfold shape_weather_data, rbind in E.
  destruct (py_get (JObj d) "main" (JObj [])) as [main_info |] eqn:Hmain;
    [| discriminate E].
  destruct (py_get main_info "temp" JNull) as [temp |] eqn:Htemp; [| discriminate E].
  destruct (py_get main_info "humidity" JNull) as [hum |]; [| discriminate E].
  destruct (py_get (JObj d) "weather" (JArr [JObj []])) as [details |];
    [| discriminate E].
  destruct (if truthy details
            then match py_index0 details with
                 | Ok a => py_get a "description" (JStr "N/A")
                 | Raise e => Raise e
                 end
            else Ok (JStr "N/A")) as [desc |]; [| discriminate E].
  destruct (py_get (JObj d) "wind" (JObj [])) as [wind_info |] eqn:Hwind;
    [| discriminate E].
  destruct (py_get wind_info "speed" JNull) as [speed |] eqn:Hspeed; [| discriminate E].
  clear E. simpl in Hmain, Hwind. injection Hmain as <-. injection Hwind as <-.
  split.
  - destruct (dict_get d "main") as [v |]; [| reflexivity].
    destruct v; simpl in Htemp; try discriminate Htemp; reflexivity.
  - destruct (dict_get d "wind") as [v |]; [| reflexivity].
    destruct v; simpl in Hspeed; try discriminate Hspeed; reflexivity.
Qed.

Lemma process_weather_data_ill_typed (oi : string) (d : dict) :
  absent_or is_obj (dict_get d "main") = false \/
  absent_or is_obj (dict_get d "wind") = false \/
  (extractable d = true /\ complete d = true /\ well_shaped d = false) ->
  process_weather_data oi (JObj d) = internal_error_record oi.
Proof.
  intros H. unfold process_weather_data.
  destruct (shape_weather_data oi (JObj d)) as [r |] eqn:E; [| reflexivity].
  exfalso. destruct H as [H | [H | [Hex [Hc Hws]]]].
  - destruct (shape_weather_data_ok_inv oi d r E) as [Hm _]. congruence.
  - destruct (shape_weather_data_ok_inv oi d r E) as [_ Hw]. congruence.
  - rewrite (shape_weather_data_extractable oi d Hex), Hc in E. simpl negb in E.
    cbv iota in E.
    unfold well_shaped in Hws. rewrite Hex in Hws. simpl andb in Hws.
    unfold complete in Hc. rewrite !andb_true_iff, !negb_true_iff in Hc.
    destruct Hc as [[[Ct Ch] Cw] _].
    destruct (is_number_or_none (field2 d "main" "temp")) eqn:Nt.
    + destruct (py_num_number _ Nt Ct) as [k Hk].
      unfold convert_temperatures in E. rewrite Ct, Hk in E. simpl in E.
      unfold calculate_comfort_index in E. rewrite Ch, Cw in E. simpl in E.
      destruct (is_number_or_none (field2 d "main" "humidity")) eqn:Nh.
      * destruct (py_num_number _ Nh Ch) as [h Hh]. rewrite Hh in E. simpl in E.
        simpl andb in Hws.
        destruct (py_num_ill_typed _ Hws) as [Hw _]. rewrite Hw in E. discriminate E.
      * destruct (py_num_ill_typed _ Nh) as [Hh _]. rewrite Hh in E. discriminate E.
    + destruct (py_num_ill_typed _ Nt) as [Hk _].
      unfold convert_temperatures in E. rewrite Ct, Hk in E. discriminate E.
Qed.

(** X13: a payload that is not typed as the provider documents it costs the
    query, not the batch: when [main] or [wind] is present and not an
    object, or when the four required values are there but one of the
    measurements is not a number, the record appended is the internal-error
    failure. *)
Theorem ill_typed_payload_is_internal_error
    (p : provider) (t t' : trace) (key : string) (acc : list dict)
    (q : string) (d : dict) :
  strip q <> "" ->
  get_weather_data_geocoded (strip q) key p t = (Ok (JObj d), t') ->
  absent_or is_obj (dict_get d "main") = false \/
  absent_or is_obj (dict_get d "wind") = false \/
  (extractable d = true /\ complete d = true /\ well_shaped d = false) ->
  loop_body key acc q p t = (Ok (acc ++ [internal_error_record (strip q)]), t').
Proof.
  intros Hne Hrun H.
  rewrite (loop_body_resolved key acc q p t t' d Hne Hrun).
  now rewrite (process_weather_data_ill_typed (strip q) d H).
Qed.

Lemma ill_typed_payload_is_internal_error_witness :
  loop_body "k" [] "Boston" textual_provider []
    = (Ok ([] ++ [internal_error_record "Boston"]),
       [Geocode "Boston" "k"; Weather (JNum 42.36) (JNum (-71.06)) "k"]).
Proof.
  apply (ill_typed_payload_is_internal_error textual_provider []
           [Geocode "Boston" "k"; Weather (JNum 42.36) (JNum (-71.06)) "k"]
           "k" [] "Boston"
           (payload_of (get_weather_data_geocoded "Boston" "k" textual_provider []))).
  - vm_compute. discriminate.
  - reflexivity.
  - right. right. split; [reflexivity | split; reflexivity].
Defined.

(** ** Errors of the enrichment *)

(** X14: [finalize_weather_data] raises without sending the weather request
    when the match has no latitude or no longitude; it passes on the
    exception of a failed weather request; and it raises after the request
    when the payload's [sys] is present and not an object. *)
Theorem finalize_weather_data_errors :
  (forall (p : provider) (t : trace) (key : string) (g : dict) (rest : list json),
      dict_get g "lat" = None \/ dict_get g "lon" = None ->
      finalize_weather_data (JArr (JObj g :: rest)) key p t
        = (Raise OtherException, t)) /\
  (forall (p : provider) (t : trace) (key : string) (g : dict) (rest : list json)
          (lat lon : json) (e : exn),
      dict_get g "lat" = Some lat -> dict_get g "lon" = Some lon ->
      p t (Weather lat lon key) = Raise e ->
      finalize_weather_data (JArr (JObj g :: rest)) key p t
        = (Raise e, t ++ [Weather lat lon key])) /\
  (forall (p : provider) (t : trace) (key : string) (g : dict) (rest : list json)
          (lat lon : json) (d : dict),
      dict_get g "lat" = Some lat -> dict_get g "lon" = Some lon ->
      p t (Weather lat lon key) = Ok (JObj d) ->
      absent_or is_obj (dict_get d "sys") = false ->
      finalize_weather_data (JArr (JObj g :: rest)) key p t
        = (Raise OtherException, t ++ [Weather lat lon key])).
Proof.
  split; [| split].
  - intros p t key g rest H.
    unfold finalize_weather_data. unfold_m. simpl.
    destruct (dict_get g "lat") as [lat |]; simpl.
    + destruct H as [H | H]; [discriminate H | now rewrite H].
    + reflexivity.
  - intros p t key g rest lat lon e Hlat Hlon Hp.
    unfold finalize_weather_data. unfold_m. simpl.
    now rewrite Hlat, Hlon, Hp.
  - intros p t key g rest lat lon d Hlat Hlon Hp Hsys.
    unfold finalize_weather_data. unfold_m. simpl.
    rewrite Hlat, Hlon, Hp. f_equal.
    unfold overlay_location, dict_mem, py_setitem2.
    destruct (dict_get d "sys") as [v |] eqn:E; [| discriminate Hsys].
    change (negb true) with false. cbv iota. rewrite E.
    destruct v; simpl in Hsys; try discriminate Hsys; reflexivity.
Qed.

Lemma finalize_weather_data_errors_witness :
  finalize_weather_data (JArr [JObj [("name", JStr "Boston"); ("lon", JNum 2)]])
    "k" steady_provider [] = (Raise OtherException, []) /\
  finalize_weather_data boston_match "k" failing_provider []
    = (Raise RequestException, [] ++ [Weather (JNum 42.36) (JNum (-71.06)) "k"]) /\
  finalize_weather_data boston_match "k"
    (fun _ _ => Ok (JObj [("sys", JNull); ("main", JObj [])])) []
    = (Raise OtherException, [] ++ [Weather (JNum 42.36) (JNum (-71.06)) "k"]).
Proof.
  destruct finalize_weather_data_errors as [Hcoord [Hrequest Hsys]].
  split; [| split].
  - apply (Hcoord steady_provider [] "k" [("name", JStr "Boston"); ("lon", JNum 2)] []).
    left. reflexivity.
  - apply (Hrequest failing_provider [] "k"
             [("name", JStr "Boston"); ("lat", JNum 42.36); ("lon", JNum (-71.06));
              ("country", JStr "US"); ("state", JStr "Massachusetts")] []
             (JNum 42.36) (JNum (-71.06)) RequestException); reflexivity.
  - apply (Hsys (fun _ _ => Ok (JObj [("sys", JNull); ("main", JObj [])])) [] "k"
             [("name", JStr "Boston"); ("lat", JNum 42.36); ("lon", JNum (-71.06));
              ("country", JStr "US"); ("state", JStr "Massachusetts")] []
             (JNum 42.36) (JNum (-71.06)) [("sys", JNull); ("main", JObj [])]);
      reflexivity.
Defined.

(** ** Batches in sequence, and the description *)

(** X15: a batch is processed query by query, left to right: the batch
    [qs1 ++ qs2] is the batch [qs1] followed by the batch [qs2] on the
    records and the requests the first left behind, so the records of [qs1]
    are a prefix of the result, untouched by what follows. *)
Theorem process_batch_app
    (key : string) (qs1 qs2 : list string) (acc : list dict)
    (p : provider) (t : trace) :
  exists rs1 t1,
    process_batch key qs1 acc p t = (Ok (acc ++ rs1), t ++ t1) /\
    process_batch key (qs1 ++ qs2) acc p t
      = process_batch key qs2 (acc ++ rs1) p (t ++ t1) /\
    exists rs2 t2,
      process_batch key (qs1 ++ qs2) acc p t
        = (Ok (acc ++ rs1 ++ rs2), t ++ t1 ++ t2).
Proof.
  revert acc t. induction qs1 as [| q qs1 IH]; intros acc t.
  - exists [], []. rewrite !app_nil_r. split; [reflexivity | split; [reflexivity |]].
    destruct (process_batch_run key qs2 acc p t) as [rs2 [t2 [Hrun _]]].
    exists rs2, t2. exact Hrun.
  - simpl app. simpl process_batch. unfold bind.
    destruct (String.eqb (strip q) "") eqn:E.
    + apply String.eqb_eq in E. rewrite (loop_body_skip key acc q p t E). apply IH.
    + apply String.eqb_neq in E. rewrite (loop_body_query key acc q p t E).
      destruct (get_weather_data_geocoded_run (strip q) key p t) as [w [t0 [Hrun _]]].
      rewrite Hrun.
      set (r := if negb (truthy w) then fetch_error_record (strip q)
                else process_weather_data (strip q) w).
      destruct (IH (acc ++ [r]) (t ++ Geocode (strip q) key :: t0))
        as [rs1 [t1 [H1 [H2 [rs2 [t2 H3]]]]]].
      rewrite <- ?app_assoc in H1, H2, H3. simpl in H1, H2, H3.
      exists (r :: rs1), (Geocode (strip q) key :: t0 ++ t1).
      split; [exact H1 | split; [exact H2 |]].
      exists rs2, t2. simpl. rewrite <- ?app_assoc. exact H3.
Qed.

(** X16: of the weather conditions only the first is read: for a query that
    resolves to a well-typed complete payload whose [weather] list starts
    with an object, the success record's description is that object's
    ['description'], whatever it is, and "N/A" only when the object has
    none. *)
Theorem first_condition_gives_the_description
    (p : provider) (t t' : trace) (key : string) (acc : list dict)
    (q : string) (d first : dict) (others : list json) :
  strip q <> "" ->
  get_weather_data_geocoded (strip q) key p t = (Ok (JObj d), t') ->
  well_shaped d = true ->
  complete d = true ->
  dict_get d "weather" = Some (JArr (JObj first :: others)) ->
  exists r : dict,
    loop_body key acc q p t = (Ok (acc ++ [r]), t') /\
    is_success r = true /\
    dict_get r "weather_desc"
      = Some (match dict_get first "description" with
              | Some v => v
              | None => JStr "N/A"
              end).
Proof.
  intros Hne Hrun Hws Hc Hweather.
  exists (process_weather_data (strip q) (JObj d)).
  split; [now apply loop_body_resolved |].
  destruct (process_weather_data_complete (strip q) d Hws Hc) as [c [f [v ->]]].
  split; [reflexivity |].
  unfold description_of. rewrite Hweather. reflexivity.
Qed.

Lemma first_condition_gives_the_description_witness :
  exists r : dict,
    loop_body "k" [] "Boston" steady_provider []
      = (Ok ([] ++ [r]),
         [Geocode "Boston" "k"; Weather (JNum 42.36) (JNum (-71.06)) "k"]) /\
    is_success r = true /\
    dict_get r "weather_desc"
      = Some (match dict_get [("main", JStr "Clear"); ("description", JStr "clear sky")]
                      "description" with
              | Some v => v
              | None => JStr "N/A"
              end).
Proof.
  apply (first_condition_gives_the_description steady_provider []
           [Geocode "Boston" "k"; Weather (JNum 42.36) (JNum (-71.06)) "k"]
           "k" [] "Boston"
           (payload_of (get_weather_data_geocoded "Boston" "k" steady_provider []))
           [("main", JStr "Clear"); ("description", JStr "clear sky")] []).
  - vm_compute. discriminate.
  - reflexivity.
  - reflexivity.
  - reflexivity.
  - reflexivity.
Defined.

(** ** Storing the valid records *)













